(** * InaSAFE: vector helpers and the gender postprocessor

    A shallow embedding of
    - [safe/postprocessors/gender_postprocessor.py] (class
      [GenderPostprocessor]) and
    - [safe/common/qgis_vector_tools.py] ([points_to_rectangles],
      [union_geometry], [split_by_polygon]),
    followed by the properties of the two modules.

    The code is Python 2 (PyQt4, QGIS 2): [7 / 7] is integer division,
    [round] returns a float and rounds halves away from zero, and [int]
    truncates.  Python floats are IEEE binary64 numbers and are modelled by
    Rocq's primitive floats, Python integers by [Z]. *)

From Stdlib Require Import ZArith List Bool Lia Ascii.
From Stdlib Require Import Floats.PrimFloat Floats.FloatOps Floats.SpecFloat.
From Stdlib Require Import Floats.FloatAxioms.
From stdpp Require Import base option list gmap strings pretty.

Set Warnings "-inexact-float".
#[local] Open Scope string_scope.
#[local] Open Scope list_scope.
#[local] Open Scope Z_scope.

(** ** Python: exceptions, results, values *)

Module Py.

(** The exceptions the two modules can end in. [SequencingError] is the
    spec's name for what [_raise_error] raises, [WrongDataTypeException]
    is the exception the spec calls DataKindError. *)
Inductive exn : Type :=
| SequencingError (msg : string)
| WrongDataTypeException (msg : string)
| KeyError (key : string)
| TypeError
| OverflowError
| ValueError
| ZeroDivisionError
| IndexError
| AttributeError
| UnboundLocalError (var : string).

(** A call either returns a value or raises. What an object held when a
    call raised is not kept: no property below looks at an object after an
    exception. *)
Inductive result (A : Type) : Type :=
| Ok (a : A)
| Raise (e : exn).
Arguments Ok {A} a.
Arguments Raise {A} e.

Definition bind {A B} (r : result A) (k : A -> result B) : result B :=
  match r with
  | Ok a => k a
  | Raise e => Raise e
  end.

Notation "x <- r ;; k" := (bind r (fun x => k))
  (at level 100, r at next level, right associativity).

(** A [for] loop whose body may raise: the first exception ends the loop. *)
Fixpoint for_each {A S} (body : S -> A -> result S) (xs : list A) (st : S)
  : result S :=
  match xs with
  | [] => Ok st
  | x :: xs' => st' <- body st x ;; for_each body xs' st'
  end.

(** The call ended in the data-kind error, with whatever message. *)
Definition data_kind_error {A} (r : result A) : Prop :=
  exists msg, r = Raise (WrongDataTypeException msg).

(** The exceptions a slip in the code itself ends in: an unbound local
    name or an index outside a list. *)
Definition name_or_index_error (e : exn) : Prop :=
  e = IndexError \/ exists var, e = UnboundLocalError var.

(** Reading a local name that no assignment has bound yet. *)
Definition read_local {A} (var : string) (v : option A) : result A :=
  match v with
  | Some a => Ok a
  | None => Raise (UnboundLocalError var)
  end.

(** [l[index] = value] on a list: a negative index counts from the end,
    an index outside the list raises IndexError. *)
Definition list_setitem {A} (l : list A) (index : Z) (value : A)
  : result (list A) :=
  let n := Z.of_nat (length l) in
  let i := if index <? 0 then index + n else index in
  if (0 <=? i) && (i <? n) then Ok (<[Z.to_nat i := value]> l)
  else Raise IndexError.

(** The position that [l[index]] names in a list of [n] items: a negative
    index counts from the end. *)
Definition item_position (index : Z) (n : nat) : nat :=
  Z.to_nat (if index <? 0 then index + Z.of_nat n else index).

(** The values the postprocessor's parameters hold: [None] or a number. *)
Inductive pyval : Type :=
| PyNone
| PyInt (n : Z)
| PyFloat (x : float).

Definition is_None (v : pyval) : bool :=
  match v with
  | PyNone => true
  | _ => false
  end.

(** [float(n)] for an integer: the nearest binary64 number (ties to even);
    OverflowError when [n] is too large for a float. *)
Definition float_of_int (n : Z) : result float :=
  match binary_normalize prec emax n 0 false with
  | S754_infinity _ => Raise OverflowError
  | sf => Ok (SF2Prim sf)
  end.

(** The operands of a binary arithmetic operator after Python's coercion:
    two integers, or two floats. *)
Inductive operands : Type :=
| IntOps (a b : Z)
| FloatOps (a b : float).

Definition coerce (a b : pyval) : result operands :=
  match a, b with
  | PyInt m, PyInt n => Ok (IntOps m n)
  | PyInt m, PyFloat y => x <- float_of_int m ;; Ok (FloatOps x y)
  | PyFloat x, PyInt n => y <- float_of_int n ;; Ok (FloatOps x y)
  | PyFloat x, PyFloat y => Ok (FloatOps x y)
  | _, _ => Raise TypeError
  end.

Definition py_mul (a b : pyval) : result pyval :=
  ops <- coerce a b ;;
  match ops with
  | IntOps m n => Ok (PyInt (m * n))
  | FloatOps x y => Ok (PyFloat (PrimFloat.mul x y))
  end.

Definition py_add (a b : pyval) : result pyval :=
  ops <- coerce a b ;;
  match ops with
  | IntOps m n => Ok (PyInt (m + n))
  | FloatOps x y => Ok (PyFloat (PrimFloat.add x y))
  end.

(** [a / b]: floor division on two integers (Python 2), float division
    otherwise; ZeroDivisionError on a zero divisor. *)
Definition py_div (a b : pyval) : result pyval :=
  ops <- coerce a b ;;
  match ops with
  | IntOps m n =>
      if n =? 0 then Raise ZeroDivisionError else Ok (PyInt (m / n))
  | FloatOps x y =>
      if PrimFloat.eqb y 0%float then Raise ZeroDivisionError
      else Ok (PyFloat (PrimFloat.div x y))
  end.

(** [round(x)]: the float nearest to [x] with an integral value, halves
    away from zero; an integer argument is first converted to a float.
    Infinities, NaN and zeros round to themselves. *)
Definition round_half_away (m : positive) (e : Z) : Z :=
  match e with
  | Z0 => Zpos m
  | Zpos p => Zpos m * 2 ^ Zpos p
  | Zneg p => (2 * Zpos m + 2 ^ Zpos p) / (2 * 2 ^ Zpos p)
  end.

Definition round_float (x : float) : float :=
  match Prim2SF x with
  | S754_finite s m e =>
      SF2Prim (binary_normalize prec emax
                 (cond_Zopp s (round_half_away m e)) 0 s)
  | _ => x
  end.

Definition py_round (v : pyval) : result pyval :=
  match v with
  | PyNone => Raise TypeError
  | PyInt n => x <- float_of_int n ;; Ok (PyFloat (round_float x))
  | PyFloat x => Ok (PyFloat (round_float x))
  end.

(** [int(v)]: truncation towards zero; OverflowError on an infinity,
    ValueError on NaN. *)
Definition trunc_float (x : float) : result Z :=
  match Prim2SF x with
  | S754_zero _ => Ok 0
  | S754_infinity _ => Raise OverflowError
  | S754_nan => Raise ValueError
  | S754_finite s m e =>
      Ok (cond_Zopp s
            (match e with
             | Z0 => Zpos m
             | Zpos p => Zpos m * 2 ^ Zpos p
             | Zneg p => Zpos m / 2 ^ Zpos p
             end))
  end.

Definition py_int (v : pyval) : result Z :=
  match v with
  | PyNone => Raise TypeError
  | PyInt n => Ok n
  | PyFloat x => trunc_float x
  end.

(** The binary64 number of a positive integer below 2^53, with sign [s]:
    the integer shifted to 53 bits, with the exponent that undoes the
    shift. *)
Definition small_float (s : bool) (p : positive) : spec_float :=
  match Zpos (digits2_pos p) - 53 with
  | Zneg d => S754_finite s (Pos.iter xO p d) (Zneg d)
  | _ => S754_finite s p 0
  end.

End Py.

(** ** safe/postprocessors/gender_postprocessor.py *)

Module Gender.
Import Py.

(** One entry of the accumulated results: a named integer indicator with
    optional metadata (a dictionary of strings). *)
Record indicator : Type := Indicator {
  ind_name : string;
  ind_value : Z;
  ind_metadata : option (gmap string string)
}.

(** The object's state: the results list of the base class and the two
    scalars of [GenderPostprocessor.__init__]. *)
Record GenderPostprocessor : Type := Build {
  results : list indicator;
  population_total : pyval;
  female_ratio : pyval
}.

(** [GenderPostprocessor.__init__]: both scalars start as [None]. *)
Definition init : GenderPostprocessor :=
  {| results := []; population_total := PyNone; female_ratio := PyNone |}.

(** Modelled from the spec: the base class [AbstractPostprocessor]
    ([safe/postprocessors/abstract_postprocessor.py]) is not among the
    sources.  The spec describes it as the owner of the results list with
    an [append_result(name, value, metadata?)] operation and gives its
    [setup]/[process]/[clear] template methods no condition or effect of
    their own, so they leave the object as it is. *)
Definition AbstractPostprocessor_setup (self : GenderPostprocessor)
  : result GenderPostprocessor := Ok self.

(** Modelled from the spec: [AbstractPostprocessor.process] of the
    absent base class; the spec gives it no condition or effect. *)
Definition AbstractPostprocessor_process (self : GenderPostprocessor)
  : result GenderPostprocessor := Ok self.

(** Modelled from the spec: [AbstractPostprocessor.clear] of the absent
    base class; the spec gives it no effect. *)
Definition AbstractPostprocessor_clear (self : GenderPostprocessor)
  : GenderPostprocessor := self.

(** Modelled from the spec: [_raise_error] of the absent base class
    signals the spec's sequencing error with the given message. *)
Definition _raise_error {A} (msg : string) : result A :=
  Raise (SequencingError msg).

(** Modelled from the spec: [_append_result] of the absent base class
    appends (name, value, metadata) to the results list. *)
Definition _append_result (self : GenderPostprocessor) (name : string)
  (value : Z) (metadata : option (gmap string string)) : GenderPostprocessor :=
  {| results := results self ++ [Indicator name value metadata];
     population_total := population_total self;
     female_ratio := female_ratio self |}.

(** [params[key]] on a dictionary. *)
Definition getitem (params : gmap string pyval) (key : string) : result pyval :=
  match params !! key with
  | Some v => Ok v
  | None => Raise (KeyError key)
  end.

Section WithTranslation.

(** [safe.common.utilities.ugettext], the translation of a message; it is
    not among the sources and stays a parameter. *)
Variable tr : string -> string.

Definition setup (self : GenderPostprocessor) (params : gmap string pyval)
  : result GenderPostprocessor :=
  self <- AbstractPostprocessor_setup self ;;
  self <- (if negb (is_None (population_total self))
              || negb (is_None (female_ratio self))
           then _raise_error "clear needs to be called before setup"
           else Ok self) ;;
  pt <- getitem params "population_total" ;;
  let self := {| results := results self; population_total := pt;
                 female_ratio := female_ratio self |} in
  fr <- getitem params "female_ratio" ;;
  Ok {| results := results self; population_total := population_total self;
        female_ratio := fr |}.

(** [int(round(myResult))] *)
Definition int_round (myResult : pyval) : result Z :=
  r <- py_round myResult ;; py_int r.

Definition _calculate_total (self : GenderPostprocessor)
  : result GenderPostprocessor :=
  let myName := tr "Total" in
  let myResult := population_total self in
  myResult <- int_round myResult ;;
  Ok (_append_result self myName myResult None).

Definition _calculate_females (self : GenderPostprocessor)
  : result GenderPostprocessor :=
  let myName := tr "Female population" in
  myResult <- py_mul (population_total self) (female_ratio self) ;;
  myResult <- int_round myResult ;;
  Ok (_append_result self myName myResult None).

Definition _calculate_weekly_hygene_packs (self : GenderPostprocessor)
  : result GenderPostprocessor :=
  let myName := tr "Weekly hygiene packs" in
  let myMeta : gmap string string :=
    {[ "description" := "Females hygiene packs for weekly use" ]} in
  a <- py_mul (population_total self) (female_ratio self) ;;
  b <- py_mul a (PyFloat 0.7937) ;;
  week <- py_div (PyInt 7) (PyInt 7) ;;
  myResult <- py_mul b week ;;
  myResult <- int_round myResult ;;
  Ok (_append_result self myName myResult (Some myMeta)).

Definition _calculate_weekly_increased_calories (self : GenderPostprocessor)
  : result GenderPostprocessor :=
  let myName :=
    tr "Additional weekly rice kg for pregnant and lactating women" in
  let myMeta : gmap string string :=
    {[ "description" :=
         "Additional rice kg per week for pregnant and lactating women" ]} in
  a <- py_mul (population_total self) (female_ratio self) ;;
  b <- py_mul a (PyInt 2) ;;
  myLactKg <- py_mul b (PyFloat 0.033782) ;;
  a <- py_mul (population_total self) (female_ratio self) ;;
  b <- py_mul a (PyInt 2) ;;
  myPregKg <- py_mul b (PyFloat 0.01281) ;;
  myResult <- py_add myLactKg myPregKg ;;
  myResult <- int_round myResult ;;
  Ok (_append_result self myName myResult (Some myMeta)).

Definition process (self : GenderPostprocessor) : result GenderPostprocessor :=
  self <- AbstractPostprocessor_process self ;;
  self <- (if is_None (population_total self) || is_None (female_ratio self)
           then _raise_error "setup needs to be called before process"
           else Ok self) ;;
  self <- _calculate_total self ;;
  self <- _calculate_females self ;;
  self <- _calculate_weekly_hygene_packs self ;;
  _calculate_weekly_increased_calories self.

Definition clear (self : GenderPostprocessor) : GenderPostprocessor :=
  let self := AbstractPostprocessor_clear self in
  {| results := results self; population_total := PyNone;
     female_ratio := PyNone |}.

End WithTranslation.

(** The configuration mapping of the spec's example. *)
Definition example_params : gmap string pyval :=
  <["population_total" := PyInt 1000]> (<["female_ratio" := PyFloat 0.5]> ∅).

(** A mapping with a negative population and a ratio above one. *)
Definition odd_params : gmap string pyval :=
  <["population_total" := PyInt (-5)]> (<["female_ratio" := PyFloat 7.5]> ∅).

End Gender.

(** ** safe/common/qgis_vector_tools.py *)

Module VectorTools.
Import Py.

(** *** The host's data model (QGIS), as far as the module uses it *)

Record QgsPoint : Type := Point { px : float; py : float }.

(** Field types ([QVariant.Int], ...) and attribute values. *)
Inductive QVariantType : Type := QVariant_Int | QVariant_Double | QVariant_String.

Inductive QVariant : Type :=
| QNull
| QInt (n : Z)
| QDouble (x : float)
| QString (s : string).

Record QgsField : Type := Field { field_name : string; field_type : QVariantType }.

(** A feature: a geometry and a positional attribute list. *)
Record QgsFeature (G : Type) : Type := Feature {
  geometry : G;
  attributes : list QVariant
}.
Arguments Feature {G} geometry attributes.
Arguments geometry {G} _.
Arguments attributes {G} _.

(** A vector layer with its memory provider: geometry type code (0 point,
    1 line, 2 polygon), coordinate reference system, fields, features. *)
Record QgsVectorLayer (G : Type) : Type := Layer {
  layer_name : string;
  geometryType : Z;
  crs : string;
  fields : list QgsField;
  features : list (QgsFeature G)
}.
Arguments Layer {G} layer_name geometryType crs fields features.
Arguments layer_name {G} _.
Arguments geometryType {G} _.
Arguments crs {G} _.
Arguments fields {G} _.
Arguments features {G} _.

(** The geometry engine: the operations of [QgsGeometry] the module calls,
    [geom_type] being [QgsGeometry.type()] with the codes of the layer
    types. [intersects a b] is [a.intersects(b)], and likewise for the
    other binary operations. [combine] gives no geometry ([None] in
    Python) when the engine cannot build one; that is the case the
    [except AttributeError] of [union_geometry] is written for. The copy
    constructor [QgsGeometry(g)] is the identity on values, and every
    feature has a geometry. *)
Class GeometryEngine (G : Type) : Type := {
  geom_type : G -> Z;
  intersects : G -> G -> bool;
  intersection : G -> G -> G;
  symDifference : G -> G -> G;
  combine : G -> G -> option G;
  isGeosValid : G -> bool;
  asGeometryCollection : G -> list G
}.

(** Reading a point geometry and building a polygon from rings. *)
Class PointGeometry (G : Type) : Type := {
  asPoint : G -> QgsPoint;
  fromPolygon : list (list QgsPoint) -> G
}.

(** The two look-ups of a field's column by name: [QgsFields.indexFromName]
    and the provider's [fieldNameIndex]; both answer [-1] for no column. *)
Class FieldIndex : Type := {
  indexFromName : list QgsField -> string -> Z;
  fieldNameIndex : list QgsField -> string -> Z
}.

(** A feature request is the filter it stands for; the default request
    lets every feature through. *)
Definition QgsFeatureRequest (G : Type) : Type := QgsFeature G -> bool.

Definition default_request {G} : QgsFeatureRequest G := fun _ => true.

Definition getFeatures {G} (vector : QgsVectorLayer G)
  (request : QgsFeatureRequest G) : list (QgsFeature G) :=
  List.filter request (features vector).

(** The memory provider reads a layer's geometry kind and reference system
    from its URI, [<kind>?crs=<wkt>]. *)
Fixpoint split_at_query (uri : string) : string * string :=
  match uri with
  | EmptyString => (EmptyString, EmptyString)
  | String c rest =>
      if Ascii.eqb c "?"%char then (EmptyString, rest)
      else let (kind, query) := split_at_query rest in (String c kind, query)
  end.

Definition crs_of_query (query : string) : string :=
  match query with
  | String "c" (String "r" (String "s" (String "=" wkt))) => wkt
  | _ => EmptyString
  end.

Definition type_of_kind (kind : string) : Z :=
  if String.eqb kind "Point" then 0
  else if String.eqb kind "LineString" then 1
  else if String.eqb kind "Polygon" then 2
  else 4.

(** [QgsVectorLayer(uri, name, 'memory')]: a new layer without fields or
    features. *)
Definition new_memory_layer {G} (uri name : string) : QgsVectorLayer G :=
  let (kind, query) := split_at_query uri in
  Layer name (type_of_kind kind) (crs_of_query query) [] [].

Definition addAttributes {G} (layer : QgsVectorLayer G) (new : list QgsField)
  : QgsVectorLayer G :=
  Layer (layer_name layer) (geometryType layer) (crs layer)
        (fields layer ++ new) (features layer).

Definition addFeatures {G} (layer : QgsVectorLayer G) (new : list (QgsFeature G))
  : QgsVectorLayer G :=
  Layer (layer_name layer) (geometryType layer) (crs layer)
        (fields layer) (features layer ++ new).

(** *** points_to_rectangles *)

Section PointsToRectangles.
Context {G : Type} `{PointGeometry G}.

Definition rectangle_feature (dx dy : float) (feature : QgsFeature G)
  : QgsFeature G :=
  let attrs := attributes feature in
  let point := asPoint (geometry feature) in
  let x := px point in
  let y := py point in
  let g := fromPolygon
             [[Point x y;
               Point (x + dx) y;
               Point (x + dx) (y - dy);
               Point x (y - dy)]] in
  Feature g attrs.

Definition points_to_rectangles (points : QgsVectorLayer G) (dx dy : float)
  : QgsVectorLayer G :=
  let crs := crs points in
  let fields := fields points in
  let polygons := new_memory_layer ("Polygon?crs=" ++ crs)%string "polygons" in
  let polygons := addAttributes polygons fields in
  fold_left
    (fun polygons feature =>
       addFeatures polygons [rectangle_feature dx dy feature])
    (getFeatures points default_request)
    polygons.

End PointsToRectangles.

(** *** union_geometry *)

Section UnionGeometry.
Context {G : Type} `{GeometryEngine G}.

(** [tmp_geometry.isGeosValid()], where [tmp_geometry] may be [None]. *)
Definition call_isGeosValid (tmp_geometry : option G) : result bool :=
  match tmp_geometry with
  | Some g => Ok (isGeosValid g)
  | None => Raise AttributeError
  end.

(** [try: ... except AttributeError: pass] around an update of
    [result_geometry]. *)
Definition except_AttributeError {A} (attempt : result A) (unchanged : A)
  : result A :=
  match attempt with
  | Raise AttributeError => Ok unchanged
  | other => other
  end.

(** One turn of the loop over the features; [result_geometry] is [None]
    until the first feature has been seen. *)
Definition union_step (result_geometry : option G) (feature : QgsFeature G)
  : result (option G) :=
  match result_geometry with
  | None => Ok (Some (geometry feature))
  | Some acc =>
      let tmp_geometry := combine acc (geometry feature) in
      except_AttributeError
        (valid <- call_isGeosValid tmp_geometry ;;
         if valid then Ok tmp_geometry else Ok result_geometry)
        result_geometry
  end.

Definition union_geometry (vector : QgsVectorLayer G)
  (request : QgsFeatureRequest G) : result (option G) :=
  for_each union_step (getFeatures vector request) None.

(** The loop of [union_geometry] on the features it is given. *)
Definition dissolve (selected : list (QgsFeature G)) : result (option G) :=
  for_each union_step selected None.

(** Combining [g] into [acc] gives no geometry or an invalid one. *)
Definition combination_fails (acc g : G) : bool :=
  match combine acc g with
  | Some tmp_geometry => negb (isGeosValid tmp_geometry)
  | None => true
  end.

(** What combining [g] into [acc] leaves in the accumulator: the
    combination when there is one and it is valid, [acc] otherwise. *)
Definition merged (acc g : G) : G :=
  match combine acc g with
  | Some tmp_geometry => if isGeosValid tmp_geometry then tmp_geometry else acc
  | None => acc
  end.

End UnionGeometry.

(** *** split_by_polygon *)

Section SplitByPolygon.
Context {G : Type} `{GeometryEngine G} `{FieldIndex}.

(** The optional mark directive [(field_name, field_value)]. *)
Definition mark_directive : Type := option (string * QVariant).

Definition _set_feature (geometry : G) (attributes : list QVariant)
  : QgsFeature G :=
  Feature geometry attributes.

Definition _update_attr_list (attributes : list QVariant) (index : Z)
  (value : QVariant) (add_attribute : bool) : result (list QVariant) :=
  let new_attributes := attributes in
  if add_attribute then Ok (new_attributes ++ [value])
  else list_setitem new_attributes index value.

(** Lines 157-168: the URI of the result layer, or the data-kind error. *)
Definition result_uri (vector : QgsVectorLayer G) : result string :=
  let crs := crs vector in
  if geometryType vector =? 0 then
    Raise (WrongDataTypeException "Points cant' be split")
  else if geometryType vector =? 1 then Ok ("LineString?crs=" ++ crs)%string
  else if geometryType vector =? 2 then Ok ("Polygon?crs=" ++ crs)%string
  else
    Raise (WrongDataTypeException
             ("Received unexpected type of layer geometry: "
                ++ pretty (geometryType vector))%string).

(** Lines 174-184: the fields of [vector] are copied to the result layer
    and the mark field is added when [indexFromName] does not find it.
    The second component is [new_field_added]. *)
Definition copy_fields (vector result_layer : QgsVectorLayer G)
  (mark_value : mark_directive) : QgsVectorLayer G * bool :=
  let fields := fields vector in
  let result_layer := addAttributes result_layer fields in
  match mark_value with
  | Some (target_field, _) =>
      if indexFromName fields target_field =? -1 then
        (addAttributes result_layer [Field target_field QVariant_Int], true)
      else (result_layer, false)
  | None => (result_layer, false)
  end.

(** Lines 187-195: [target_value] and [target_field_index]. The index is
    bound only when a mark directive is given. *)
Definition resolve_target (result_layer : QgsVectorLayer G)
  (mark_value : mark_directive) : result (QVariant * option Z) :=
  match mark_value with
  | Some (target_field, target_value) =>
      let target_field_index :=
        fieldNameIndex (fields result_layer) target_field in
      if target_field_index =? -1 then
        Raise (WrongDataTypeException
               ("Field not found for " ++ target_field)%string)
      else Ok (target_value, Some target_field_index)
  | None => Ok (QNull, None)
  end.

(** What the split loop changes: the result layer, and the local name
    [new_attributes], which stays bound from one turn to the next. *)
Record split_state : Type := SplitState {
  st_result_layer : QgsVectorLayer G;
  st_new_attributes : option (list QVariant)
}.

Section Loop.
Variable polygon : G.
Variable mark_value : mark_directive.
Variable new_field_added : bool.
Variable target_value : QVariant.
Variable target_field_index : option Z.

(** [feature = _set_feature(g, new_attributes)] and
    [result_layer.dataProvider().addFeatures([feature])]. *)
Definition emit (st : split_state) (g : G) : result split_state :=
  attrs <- read_local "new_attributes" (st_new_attributes st) ;;
  let feature := _set_feature g attrs in
  Ok (SplitState (addFeatures (st_result_layer st) [feature])
                 (st_new_attributes st)).

(** [new_attributes = _update_attr_list(attributes, target_field_index,
    value, add_attribute=new_field_added)] *)
Definition assign_new_attributes (st : split_state)
  (attributes : list QVariant) (value : QVariant) : result split_state :=
  index <- read_local "target_field_index" target_field_index ;;
  attrs <- _update_attr_list attributes index value new_field_added ;;
  Ok (SplitState (st_result_layer st) (Some attrs)).

(** Lines 209-219: one part of the intersection. *)
Definition inside_part (attributes : list QVariant) (geometry_type : Z)
  (st : split_state) (g : G) : result split_state :=
  if geom_type g =? geometry_type then
    st <- match mark_value with
          | Some _ => assign_new_attributes st attributes target_value
          | None => Ok st
          end ;;
    emit st g
  else Ok st.

(** Lines 225-234: one part of the symmetric difference. *)
Definition outside_part (attributes : list QVariant) (geometry_type : Z)
  (st : split_state) (g : G) : result split_state :=
  if geom_type g =? geometry_type then
    st <- assign_new_attributes st attributes (QInt 0) ;;
    emit st g
  else Ok st.

(** Lines 199-244: the body of the loop over the features. *)
Definition split_feature (st : split_state) (initial_feature : QgsFeature G)
  : result split_state :=
  let initial_geom := geometry initial_feature in
  let attributes := attributes initial_feature in
  let geometry_type := geom_type initial_geom in
  if intersects polygon initial_geom then
    let intersection :=
      asGeometryCollection (intersection initial_geom polygon) in
    st <- for_each (inside_part attributes geometry_type) intersection st ;;
    let diff_geom :=
      asGeometryCollection (symDifference initial_geom polygon) in
    for_each (outside_part attributes geometry_type) diff_geom st
  else
    st <- match mark_value with
          | Some _ => assign_new_attributes st attributes (QInt 0)
          | None => Ok st
          end ;;
    emit st initial_geom.

End Loop.

Definition split_by_polygon (vector : QgsVectorLayer G) (polygon : G)
  (request : QgsFeatureRequest G) (mark_value : mark_directive)
  : result (QgsVectorLayer G) :=
  uri <- result_uri vector ;;
  let result_layer := new_memory_layer uri "intersected" in
  let (result_layer, new_field_added) :=
    copy_fields vector result_layer mark_value in
  target <- resolve_target result_layer mark_value ;;
  let (target_value, target_field_index) := target in
  st <- for_each
          (split_feature polygon mark_value new_field_added
                         target_value target_field_index)
          (getFeatures vector request)
          (SplitState result_layer None) ;;
  Ok (st_result_layer st).

(** *** Vocabulary for the properties of [split_by_polygon] *)

(** The mark directive names a field that [indexFromName] does not find
    among the fields of [vector]. *)
Definition field_added (vector : QgsVectorLayer G) (mark_value : mark_directive)
  : bool :=
  match mark_value with
  | Some (target_field, _) => indexFromName (fields vector) target_field =? -1
  | None => false
  end.

(** The fields of [vector], followed by the mark field as an integer
    field when it is added. *)
Definition result_fields (vector : QgsVectorLayer G)
  (mark_value : mark_directive) : list QgsField :=
  fields vector ++
  match mark_value with
  | Some (target_field, _) =>
      if indexFromName (fields vector) target_field =? -1
      then [Field target_field QVariant_Int]
      else []
  | None => []
  end.

(** [emitted] is the attribute list [source] marked as the directive says:
    with the mark value or 0 appended when the field is added, and
    otherwise with the mark value or 0 assigned at the column that
    [fieldNameIndex] gives for the field. *)
Definition marked_from (vector : QgsVectorLayer G) (mark_value : mark_directive)
  (source emitted : list QVariant) : Prop :=
  match mark_value with
  | Some (target_field, target_value) =>
      exists value,
        (value = target_value \/ value = QInt 0)
        /\ if indexFromName (fields vector) target_field =? -1
           then emitted = source ++ [value]
           else list_setitem source
                  (fieldNameIndex (result_fields vector mark_value) target_field)
                  value = Ok emitted
  | None => False
  end.

(** [emitted] is [source] with the mark, said by what is read from the two
    lists. When the mark field is added, [emitted] is [source] followed by
    the mark value or 0. When the field exists, with [column] the position
    that [fieldNameIndex] gives for it: [emitted] is as long as [source],
    the column lies inside it and holds the mark value or 0, and every
    other column holds what it holds in [source]. *)
Definition marked_as (vector : QgsVectorLayer G) (mark_value : mark_directive)
  (source emitted : list QVariant) : Prop :=
  match mark_value with
  | Some (target_field, target_value) =>
      exists value,
        (value = target_value \/ value = QInt 0)
        /\ if indexFromName (fields vector) target_field =? -1
           then emitted = source ++ [value]
           else
             let column :=
               item_position
                 (fieldNameIndex (result_fields vector mark_value) target_field)
                 (length source) in
             length emitted = length source
             /\ (column < length source)%nat
             /\ emitted !! column = Some value
             /\ forall other : nat,
                  other <> column -> emitted !! other = source !! other
  | None => False
  end.

(** [attrs] is the marked attribute list of a feature of [vector] that
    passes the filter. *)
Definition emitted_from (vector : QgsVectorLayer G)
  (request : QgsFeatureRequest G) (mark_value : mark_directive)
  (attrs : list QVariant) : Prop :=
  exists source,
    In source (getFeatures vector request)
    /\ marked_from vector mark_value (attributes source) attrs.

(** What every turn of the split loop keeps: the fields of the result
    layer, and where the attributes of its features and the value of
    [new_attributes] come from. *)
Definition split_invariant (vector : QgsVectorLayer G)
  (request : QgsFeatureRequest G) (mark_value : mark_directive)
  (st : split_state) : Prop :=
  fields (st_result_layer st) = result_fields vector mark_value
  /\ Forall (fun f => emitted_from vector request mark_value (attributes f))
            (features (st_result_layer st))
  /\ (forall attrs,
         st_new_attributes st = Some attrs ->
         emitted_from vector request mark_value attrs).

(** The parts of [g] that have the given geometry type. *)
Definition parts_of_type (geometry_type : Z) (g : G) : list G :=
  List.filter (fun part => geom_type part =? geometry_type)
              (asGeometryCollection g).

(** [attributes] with the mark [value]: appended when the field was
    added, otherwise in column [index] (taken non-negative and inside the
    list). *)
Definition put_mark (new_field_added : bool) (index : Z) (value : QVariant)
  (attributes : list QVariant) : list QVariant :=
  if new_field_added then attributes ++ [value]
  else <[Z.to_nat index := value]> attributes.

(** The features one source feature stands for in the result, under a
    mark directive with value [target_value]: the parts inside the polygon
    first, then the parts of the symmetric difference; or the feature
    itself when it does not intersect the polygon. *)
Definition marked_features (polygon : G) (new_field_added : bool) (index : Z)
  (target_value : QVariant) (f : QgsFeature G) : list (QgsFeature G) :=
  if intersects polygon (geometry f) then
    map (fun g =>
           Feature g (put_mark new_field_added index target_value (attributes f)))
        (parts_of_type (geom_type (geometry f))
                       (intersection (geometry f) polygon))
    ++ map (fun g =>
              Feature g (put_mark new_field_added index (QInt 0) (attributes f)))
         (parts_of_type (geom_type (geometry f))
                        (symDifference (geometry f) polygon))
  else
    [Feature (geometry f) (put_mark new_field_added index (QInt 0) (attributes f))].

(** The feature intersects the polygon and neither the intersection nor
    the symmetric difference has a part of the feature's geometry type. *)
Definition emits_nothing (polygon : G) (f : QgsFeature G) : bool :=
  intersects polygon (geometry f)
  && match parts_of_type (geom_type (geometry f))
             (intersection (geometry f) polygon) with
     | [] => true
     | _ => false
     end
  && match parts_of_type (geom_type (geometry f))
             (symDifference (geometry f) polygon) with
     | [] => true
     | _ => false
     end.

End SplitByPolygon.

Arguments split_state G : clear implicits.

End VectorTools.

(** ** Concrete hosts

    Small implementations of the host's interfaces, on which the functions
    above run: polygons rasterised into unit cells, point and ring
    geometries, and field look-up by exact name. *)

Module Cells.
Import Py VectorTools.

(** The unit square with lower-left corner [(i, j)]. *)
Definition cell : Type := (Z * Z)%type.

(** A polygonal region: the cells it is drawn from. A cell that occurs
    twice is covered twice: the outline overlaps itself. *)
Definition region : Type := list cell.

Definition cell_eqb (a b : cell) : bool :=
  (fst a =? fst b) && (snd a =? snd b).

Definition covers (r : region) (c : cell) : bool := existsb (cell_eqb c) r.

Definition outside (r : region) (c : cell) : bool := negb (covers r c).

Fixpoint simple (r : region) : bool :=
  match r with
  | [] => true
  | c :: r' => outside r' c && simple r'
  end.

(** Every region is of polygon type (2). Two regions intersect when they
    share a cell; intersection, symmetric difference and union are those
    of the cell sets. The empty region holds no geometry: nothing can be
    combined with it and it has no parts; any other region is one part.
    A region is valid when no cell occurs twice. *)
#[export] Instance cells_engine : GeometryEngine region := {|
  geom_type := fun _ => 2;
  intersects := fun a b => existsb (covers b) a;
  intersection := fun a b => List.filter (covers b) a;
  symDifference := fun a b =>
    List.filter (outside b) a ++ List.filter (outside a) b;
  combine := fun a b =>
    match b with
    | [] => None
    | _ => Some (a ++ List.filter (outside a) b)
    end;
  isGeosValid := simple;
  asGeometryCollection := fun r =>
    match r with
    | [] => []
    | _ => [r]
    end
|}.

(** The column of the first field with exactly the given name. *)
Fixpoint index_of (name : string) (fs : list QgsField) (i : Z) : Z :=
  match fs with
  | [] => -1
  | f :: fs' =>
      if String.eqb (field_name f) name then i else index_of name fs' (i + 1)
  end.

#[export] Instance exact_names : FieldIndex := {|
  indexFromName := fun fs name => index_of name fs 0;
  fieldNameIndex := fun fs name => index_of name fs 0
|}.

(** Point and polygon geometries given by their coordinates; a geometry
    that is no point reads as the point (0, 0). *)
Inductive shape : Type :=
| PointShape (p : QgsPoint)
| PolygonShape (rings : list (list QgsPoint)).

#[export] Instance shapes : PointGeometry shape := {|
  asPoint := fun g =>
    match g with
    | PointShape p => p
    | PolygonShape _ => Point 0 0
    end;
  fromPolygon := PolygonShape
|}.

(** The rectangle [[x0, x1) x [y0, y1)] of cells, row by row. *)
Definition block (x0 x1 y0 y1 : Z) : region :=
  flat_map (fun j => map (fun i => (i, j)) (seqZ x0 (x1 - x0)))
           (seqZ y0 (y1 - y0)).

(** A polygon layer with one field and the given feature regions, each
    feature carrying its position in the list as its only attribute. *)
Definition parcels (regions : list region) : QgsVectorLayer region :=
  Layer "parcels" 2 "EPSG:4326" [Field "id" QVariant_Int]
        (imap (fun i r => Feature r [QInt (Z.of_nat i)]) regions).

(** The splitting polygon of the examples: the 3 x 3 block at the origin. *)
Definition square3 : region := block 0 3 0 3.

(** A parcel in the middle of [square3], one far away from it, one that
    reaches out of it, and one whose outline overlaps itself. *)
Definition middle : region := [(1, 1)].
Definition far_away : region := [(7, 7)].
Definition astride : region := [(2, 1); (3, 1)].
Definition overlapping : region := [(0, 0); (0, 0)].

End Cells.

(** * Properties *)

(** ** Results and loops *)

Module PyFacts.
Import Py.

Lemma bind_Ok {A B} (r : result A) (k : A -> result B) (b : B) :
  bind r k = Ok b -> exists a, r = Ok a /\ k a = Ok b.
Proof. destruct r as [a | e]; simpl; [ eauto | discriminate ]. Qed.

Lemma bind_Raise {A B} (r : result A) (k : A -> result B) (e : exn) :
  bind r k = Raise e -> r = Raise e \/ exists a, r = Ok a /\ k a = Raise e.
Proof. destruct r as [a | e']; simpl; [ eauto | intros [= ->]; eauto ]. Qed.

(** A property of the state that every turn keeps holds after the loop. *)
Lemma for_each_invariant {A S} (body : S -> A -> result S) (P : S -> Prop)
  (xs : list A) :
  (forall st x st', In x xs -> P st -> body st x = Ok st' -> P st') ->
  forall st st', P st -> for_each body xs st = Ok st' -> P st'.
Proof.
  induction xs as [| x xs IH]; intros Hbody st st' HP Hrun.
  - simpl in Hrun. injection Hrun as <-. exact HP.
  - cbn [for_each] in Hrun. apply bind_Ok in Hrun as (st1 & Hx & Hrest).
    apply (IH (fun st x st' Hin => Hbody st x st' (or_intror Hin)) st1 st');
      [ | exact Hrest ].
    apply (Hbody st x st1); [ left; reflexivity | exact HP | exact Hx ].
Qed.

(** An exception that ends the loop was raised by one of its turns. *)
Lemma for_each_Raise {A S} (body : S -> A -> result S) (E : exn -> Prop)
  (xs : list A) :
  (forall st x e, In x xs -> body st x = Raise e -> E e) ->
  forall st e, for_each body xs st = Raise e -> E e.
Proof.
  induction xs as [| x xs IH]; intros Hbody st e Hrun.
  - discriminate.
  - cbn [for_each] in Hrun.
    apply bind_Raise in Hrun as [Hx | (st1 & _ & Hrest)].
    + apply (Hbody st x e); [ left; reflexivity | exact Hx ].
    + apply (IH (fun st x e Hin => Hbody st x e (or_intror Hin)) st1 e Hrest).
Qed.

Lemma list_setitem_length {A} (l l' : list A) (index : Z) (value : A) :
  list_setitem l index value = Ok l' -> length l' = length l.
Proof.
  unfold list_setitem.
  destruct ((0 <=? _) && (_ <? _)); [ | discriminate ].
  intros [= <-]. apply length_insert.
Qed.

Lemma read_local_Ok {A} (var : string) (v : option A) (a : A) :
  read_local var v = Ok a -> v = Some a.
Proof. destruct v; simpl; congruence. Qed.

Lemma read_local_Raise {A} (var : string) (v : option A) (e : exn) :
  read_local var v = Raise e -> v = None /\ e = UnboundLocalError var.
Proof. destruct v; simpl; [ discriminate | intros [= <-]; auto ]. Qed.

Lemma list_setitem_Raise {A} (l : list A) (index : Z) (value : A) (e : exn) :
  list_setitem l index value = Raise e -> e = IndexError.
Proof.
  unfold list_setitem. destruct ((0 <=? _) && (_ <? _)); congruence.
Qed.

End PyFacts.

(** ** The gender postprocessor *)

Module GenderFacts.
Import Py PyFacts Gender.

Lemma getitem_Some (params : gmap string pyval) (key : string) (v : pyval) :
  params !! key = Some v -> getitem params key = Ok v.
Proof. unfold getitem. intros ->. reflexivity. Qed.

Lemma is_None_true (v : pyval) : is_None v = true <-> v = PyNone.
Proof. destruct v; simpl; split; congruence. Qed.

Lemma is_None_false (v : pyval) : is_None v = false <-> v <> PyNone.
Proof. destruct v; simpl; split; congruence. Qed.

(** [setup] on an object whose scalars are both [None]. *)
Lemma setup_cleared (self : GenderPostprocessor) (params : gmap string pyval) :
  population_total self = PyNone ->
  female_ratio self = PyNone ->
  setup self params =
    (pt <- getitem params "population_total" ;;
     fr <- getitem params "female_ratio" ;;
     Ok (Build (results self) pt fr)).
Proof.
  intros Hpt Hfr. unfold setup, AbstractPostprocessor_setup.
  cbn [bind]. rewrite Hpt, Hfr. reflexivity.
Qed.

(** [setup] on an object one of whose scalars is set. *)
Lemma setup_configured (self : GenderPostprocessor) (params : gmap string pyval) :
  population_total self <> PyNone \/ female_ratio self <> PyNone ->
  setup self params =
    Raise (SequencingError "clear needs to be called before setup").
Proof.
  intros Hset. unfold setup, AbstractPostprocessor_setup. cbn [bind].
  destruct Hset as [Hset | Hset]; apply is_None_false in Hset; rewrite Hset;
    [ | rewrite orb_true_r ]; reflexivity.
Qed.

(** C1. Sequencing of the gender postprocessor: [process] on an object
    one of whose scalars is [None] raises the sequencing error; [setup]
    on an object one of whose scalars is not [None] raises the sequencing
    error, whatever the parameters; [clear] sets both scalars to [None],
    and [setup] after [clear] succeeds with parameters that hold the two
    keys. *)
Theorem sequencing_errors (tr : string -> string) :
  (forall self,
      population_total self = PyNone \/ female_ratio self = PyNone ->
      process tr self =
        Raise (SequencingError "setup needs to be called before process"))
  /\ (forall self params,
         population_total self <> PyNone \/ female_ratio self <> PyNone ->
         setup self params =
           Raise (SequencingError "clear needs to be called before setup"))
  /\ (forall self,
         population_total (clear self) = PyNone
         /\ female_ratio (clear self) = PyNone)
  /\ (forall self params pt fr,
         params !! "population_total" = Some pt ->
         params !! "female_ratio" = Some fr ->
         setup (clear self) params = Ok (Build (results self) pt fr)).
Proof.
  repeat split.
  - intros self Hnull. unfold process, AbstractPostprocessor_process.
    cbn [bind].
    destruct Hnull as [Hnull | Hnull]; rewrite Hnull; simpl;
      [ | rewrite orb_true_r ]; reflexivity.
  - intros self params. apply setup_configured.
  - intros self params pt fr Hpt Hfr.
    rewrite setup_cleared by reflexivity.
    rewrite (getitem_Some _ _ _ Hpt), (getitem_Some _ _ _ Hfr). reflexivity.
Qed.

(** The theorem at work: [process] on a fresh object, a second [setup]
    without [clear], and [setup] after [clear]. *)
Lemma sequencing_errors_witness :
  process (fun s => s) init =
    Raise (SequencingError "setup needs to be called before process")
  /\ setup (Build [] (PyInt 1000) (PyFloat 0.5)) example_params =
       Raise (SequencingError "clear needs to be called before setup")
  /\ setup (clear (Build [] (PyInt 1000) (PyFloat 0.5))) example_params =
       Ok (Build [] (PyInt 1000) (PyFloat 0.5)).
Proof.
  destruct (sequencing_errors (fun s => s)) as (Hprocess & Hsetup & _ & Hclear).
  split; [ apply Hprocess; left; reflexivity | ].
  split; [ apply Hsetup; left; discriminate | ].
  apply Hclear; reflexivity.
Defined.

(** C10. [setup] does not validate its inputs: with parameters that hold
    the two keys it succeeds from an object whose scalars are both [None]
    and stores the two values as they are, whatever they are; and the
    only exception it can end in is the sequencing error. *)
Theorem setup_no_validation (self : GenderPostprocessor)
  (params : gmap string pyval) (pt fr : pyval) :
  params !! "population_total" = Some pt ->
  params !! "female_ratio" = Some fr ->
  (population_total self = PyNone ->
   female_ratio self = PyNone ->
   setup self params = Ok (Build (results self) pt fr))
  /\ (forall e,
         setup self params = Raise e ->
         e = SequencingError "clear needs to be called before setup").
Proof.
  intros Hpt Hfr.
  assert (Hok : population_total self = PyNone -> female_ratio self = PyNone ->
                setup self params = Ok (Build (results self) pt fr)).
  { intros Hpt0 Hfr0. rewrite setup_cleared by assumption.
    rewrite (getitem_Some _ _ _ Hpt), (getitem_Some _ _ _ Hfr). reflexivity. }
  split; [ exact Hok | ].
  intros e He.
  destruct (population_total self) eqn:Ept;
    [ destruct (female_ratio self) eqn:Efr | | ].
  - rewrite Hok in He by reflexivity. discriminate.
  - rewrite setup_configured in He by (right; congruence). congruence.
  - rewrite setup_configured in He by (right; congruence). congruence.
  - rewrite setup_configured in He by (left; congruence). congruence.
  - rewrite setup_configured in He by (left; congruence). congruence.
Qed.

(** A negative population and a ratio of 7.5 are stored as given. *)
Lemma setup_no_validation_witness :
  setup init odd_params = Ok (Build [] (PyInt (-5)) (PyFloat 7.5)).
Proof.
  apply (setup_no_validation init odd_params (PyInt (-5)) (PyFloat 7.5));
    reflexivity.
Defined.

Lemma snoc4 {A} (l : list A) (a b c d : A) :
  l ++ [a; b; c; d] = (((l ++ [a]) ++ [b]) ++ [c]) ++ [d].
Proof. rewrite <- !app_assoc. reflexivity. Qed.

(** C2. The spec's example. After [setup] with a population of 1000 and
    a female ratio of 0.5, [process] appends four indicators to the
    results, in this order: Total 1000, Female population 500, Weekly
    hygiene packs 397, Additional weekly rice 47. For float inputs in
    general, the rice indicator is one rounding of the float sum of the
    lactating and the pregnant amounts. *)
Theorem process_example (tr : string -> string) (sink : list indicator) :
  setup (Build sink PyNone PyNone) example_params =
    Ok (Build sink (PyInt 1000) (PyFloat 0.5))
  /\ process tr (Build sink (PyInt 1000) (PyFloat 0.5)) =
       Ok (Build
             (sink ++
              [ Indicator (tr "Total") 1000 None;
                Indicator (tr "Female population") 500 None;
                Indicator (tr "Weekly hygiene packs") 397
                  (Some {[ "description" :=
                             "Females hygiene packs for weekly use" ]});
                Indicator
                  (tr "Additional weekly rice kg for pregnant and lactating women")
                  47
                  (Some {[ "description" :=
                             "Additional rice kg per week for pregnant and lactating women" ]})
              ])
             (PyInt 1000) (PyFloat 0.5))
  /\ (forall (self : GenderPostprocessor) (p r : float),
         population_total self = PyFloat p ->
         female_ratio self = PyFloat r ->
         _calculate_weekly_increased_calories tr self =
           (kg <- int_round
                    (PyFloat (p * r * 2 * 0.033782 + p * r * 2 * 0.01281)%float) ;;
            Ok (_append_result self
                  (tr "Additional weekly rice kg for pregnant and lactating women")
                  kg
                  (Some {[ "description" :=
                             "Additional rice kg per week for pregnant and lactating women" ]})))).
Proof.
  split; [ reflexivity | split ].
  - unfold process, AbstractPostprocessor_process. cbn [bind].
    rewrite snoc4. vm_compute. reflexivity.
  - intros self p r Hp Hr.
    unfold _calculate_weekly_increased_calories. rewrite Hp, Hr.
    reflexivity.
Qed.

(** The example with the identity translation and an empty results list,
    and the rice indicator for a population given as a float. *)
Lemma process_example_witness :
  process (fun s => s) (Build [] (PyInt 1000) (PyFloat 0.5)) =
    Ok (Build
          [ Indicator "Total" 1000 None;
            Indicator "Female population" 500 None;
            Indicator "Weekly hygiene packs" 397
              (Some {[ "description" :=
                         "Females hygiene packs for weekly use" ]});
            Indicator
              "Additional weekly rice kg for pregnant and lactating women" 47
              (Some {[ "description" :=
                         "Additional rice kg per week for pregnant and lactating women" ]})
          ]
          (PyInt 1000) (PyFloat 0.5))
  /\ _calculate_weekly_increased_calories (fun s => s)
       (Build [] (PyFloat 1000) (PyFloat 0.5)) =
       Ok (Build
             [ Indicator
                 "Additional weekly rice kg for pregnant and lactating women" 47
                 (Some {[ "description" :=
                            "Additional rice kg per week for pregnant and lactating women" ]})
             ]
             (PyFloat 1000) (PyFloat 0.5)).
Proof.
  destruct (process_example (fun s => s) []) as (_ & Hprocess & Hrice).
  split; [ exact Hprocess | ].
  rewrite (Hrice (Build [] (PyFloat 1000) (PyFloat 0.5)) 1000%float 0.5%float
             eq_refl eq_refl).
  reflexivity.
Defined.

(** Whenever [process] returns, it has left the two scalars as they were
    and appended four indicators with the four names, in this order, the
    first two without metadata. *)
Lemma process_appends_four (tr : string -> string)
  (self self' : GenderPostprocessor) :
  process tr self = Ok self' ->
  population_total self' = population_total self
  /\ female_ratio self' = female_ratio self
  /\ exists total females packs rice packs_meta rice_meta,
       results self' =
         results self ++
         [ Indicator (tr "Total") total None;
           Indicator (tr "Female population") females None;
           Indicator (tr "Weekly hygiene packs") packs (Some packs_meta);
           Indicator
             (tr "Additional weekly rice kg for pregnant and lactating women")
             rice (Some rice_meta) ].
Proof.
  unfold process, AbstractPostprocessor_process. cbn [bind]. intros Hrun.
  apply bind_Ok in Hrun as (s0 & Hguard & Hrun).
  destruct (is_None (population_total self) || is_None (female_ratio self));
    [ discriminate | ].
  injection Hguard as <-.
  apply bind_Ok in Hrun as (s1 & H1 & Hrun).
  apply bind_Ok in Hrun as (s2 & H2 & Hrun).
  apply bind_Ok in Hrun as (s3 & H3 & H4).
  unfold _calculate_total in H1.
  apply bind_Ok in H1 as (total & _ & [= <-]).
  unfold _calculate_females in H2.
  apply bind_Ok in H2 as (? & _ & H2).
  apply bind_Ok in H2 as (females & _ & [= <-]).
  unfold _calculate_weekly_hygene_packs in H3.
  do 4 (apply bind_Ok in H3 as (? & _ & H3)).
  apply bind_Ok in H3 as (packs & _ & [= <-]).
  unfold _calculate_weekly_increased_calories in H4.
  do 7 (apply bind_Ok in H4 as (? & _ & H4)).
  apply bind_Ok in H4 as (rice & _ & [= <-]).
  simpl. repeat split.
  eexists total, females, packs, rice, _, _.
  rewrite snoc4. reflexivity.
Qed.

Lemma process_appends_four_witness :
  population_total
    (Build
       [ Indicator "Total" 1000 None;
         Indicator "Female population" 500 None;
         Indicator "Weekly hygiene packs" 397
           (Some {[ "description" :=
                      "Females hygiene packs for weekly use" ]});
         Indicator
           "Additional weekly rice kg for pregnant and lactating women" 47
           (Some {[ "description" :=
                      "Additional rice kg per week for pregnant and lactating women" ]})
       ]
       (PyInt 1000) (PyFloat 0.5))
  = PyInt 1000.
Proof.
  apply (process_appends_four (fun s => s)
           (Build [] (PyInt 1000) (PyFloat 0.5))).
  reflexivity.
Defined.

End GenderFacts.

(** ** The vector helpers *)

Module VectorFacts.
Import Py PyFacts VectorTools.

Lemma getFeatures_default {G} (vector : QgsVectorLayer G) :
  getFeatures vector default_request = features vector.
Proof.
  unfold getFeatures, default_request.
  induction (features vector) as [| f fs IH]; simpl; [ | rewrite IH ];
    reflexivity.
Qed.

Lemma getFeatures_none {G} (vector : QgsVectorLayer G)
  (request : QgsFeatureRequest G) :
  (forall f, In f (features vector) -> request f = false) ->
  getFeatures vector request = [].
Proof.
  unfold getFeatures. induction (features vector) as [| f fs IH]; intros Hno.
  - reflexivity.
  - simpl. rewrite (Hno f) by (left; reflexivity).
    apply IH. intros g Hg. apply Hno. right. exact Hg.
Qed.

(** *** points_to_rectangles *)

Section PointsToRectangles.
Context {G : Type} `{PointGeometry G}.

(** Adding features one at a time appends them in order and changes
    nothing else of the layer. *)
Lemma add_one_by_one (make : QgsFeature G -> QgsFeature G)
  (fs : list (QgsFeature G)) (layer : QgsVectorLayer G) :
  fold_left (fun layer f => addFeatures layer [make f]) fs layer =
    Layer (layer_name layer) (geometryType layer) (crs layer) (fields layer)
          (features layer ++ map make fs).
Proof.
  revert layer. induction fs as [| f fs IH]; intros layer; simpl.
  - rewrite app_nil_r. destruct layer; reflexivity.
  - rewrite IH. simpl. rewrite <- app_assoc. reflexivity.
Qed.

(** C7. For all [dx] and [dy] (positive or not), the layer made by
    [points_to_rectangles] is a polygon layer with the reference system
    and the fields of the input, and holds, in the order of the input, one
    feature per input feature: for a point feature at (x, y) with
    attributes A, the polygon with the ring (x, y), (x + dx, y),
    (x + dx, y - dy), (x, y - dy) and the attributes A. *)
Theorem points_to_rectangles_spec (points : QgsVectorLayer G) (dx dy : float) :
  crs (points_to_rectangles points dx dy) = crs points
  /\ fields (points_to_rectangles points dx dy) = fields points
  /\ geometryType (points_to_rectangles points dx dy) = 2
  /\ features (points_to_rectangles points dx dy) =
       map (fun feature =>
              Feature
                (fromPolygon
                   [[ Point (px (asPoint (geometry feature)))
                            (py (asPoint (geometry feature)));
                      Point (px (asPoint (geometry feature)) + dx)
                            (py (asPoint (geometry feature)));
                      Point (px (asPoint (geometry feature)) + dx)
                            (py (asPoint (geometry feature)) - dy);
                      Point (px (asPoint (geometry feature)))
                            (py (asPoint (geometry feature)) - dy) ]])
                (attributes feature))
           (features points).
Proof.
  unfold points_to_rectangles.
  rewrite getFeatures_default, add_one_by_one.
  repeat split.
Qed.

End PointsToRectangles.

(** *** union_geometry *)

Section UnionGeometry.
Context {G : Type} `{GeometryEngine G}.

(** A turn of the loop never raises, and it leaves in [result_geometry]
    the feature's geometry (first turn), a valid combination, or what was
    there before. *)
Lemma union_step_cases (result_geometry : option G) (feature : QgsFeature G) :
  match result_geometry with
  | None => union_step result_geometry feature = Ok (Some (geometry feature))
  | Some acc =>
      (exists tmp,
          combine acc (geometry feature) = Some tmp
          /\ isGeosValid tmp = true
          /\ union_step result_geometry feature = Ok (Some tmp))
      \/ ((forall tmp, combine acc (geometry feature) = Some tmp ->
                       isGeosValid tmp = false)
          /\ union_step result_geometry feature = Ok (Some acc))
  end.
Proof.
  destruct result_geometry as [acc |]; [ | reflexivity ].
  unfold union_step.
  destruct (combine acc (geometry feature)) as [tmp |] eqn:Ecombine; simpl.
  - destruct (isGeosValid tmp) eqn:Evalid; simpl.
    + left. exists tmp. repeat split. exact Evalid.
    + right. split; [ | reflexivity ].
      intros tmp' [= <-]. exact Evalid.
  - right. split; [ | reflexivity ]. intros tmp' [=].
Qed.

Lemma union_loop_valid (fs : list (QgsFeature G)) (acc : G) :
  isGeosValid acc = true ->
  exists g, for_each union_step fs (Some acc) = Ok (Some g)
            /\ isGeosValid g = true.
Proof.
  revert acc. induction fs as [| f fs IH]; intros acc Hvalid.
  - exists acc. split; [ reflexivity | exact Hvalid ].
  - cbn [for_each].
    destruct (union_step_cases (Some acc) f)
      as [(tmp & _ & Htmp & ->) | (_ & ->)]; cbn [bind].
    + apply IH. exact Htmp.
    + apply IH. exact Hvalid.
Qed.

(** Once a geometry is held, the loop ends with a geometry and does not
    raise. *)
Lemma union_loop_total (fs : list (QgsFeature G)) (acc : G) :
  exists g, for_each union_step fs (Some acc) = Ok (Some g).
Proof.
  revert acc. induction fs as [| f fs IH]; intros acc.
  - exists acc. reflexivity.
  - cbn [for_each].
    destruct (union_step_cases (Some acc) f)
      as [(tmp & _ & _ & ->) | (_ & ->)]; cbn [bind]; apply IH.
Qed.

(** [union_geometry] never raises. *)
Lemma union_geometry_total (vector : QgsVectorLayer G)
  (request : QgsFeatureRequest G) :
  exists r, union_geometry vector request = Ok r.
Proof.
  unfold union_geometry.
  destruct (getFeatures vector request) as [| f fs].
  - exists None. reflexivity.
  - simpl. destruct (union_loop_total fs (geometry f)) as (g & ->).
    exists (Some g). reflexivity.
Qed.

(** When the first feature that passes the filter has a valid geometry,
    [union_geometry] returns a valid geometry. *)
Lemma union_geometry_valid_start (vector : QgsVectorLayer G)
  (request : QgsFeatureRequest G) (f : QgsFeature G) (fs : list (QgsFeature G)) :
  getFeatures vector request = f :: fs ->
  isGeosValid (geometry f) = true ->
  exists g, union_geometry vector request = Ok (Some g)
            /\ isGeosValid g = true.
Proof.
  intros Hfs Hvalid. unfold union_geometry. rewrite Hfs. simpl.
  apply union_loop_valid. exact Hvalid.
Qed.

(** A layer with a single feature passing the filter gives that feature's
    geometry, checked or not. *)
Lemma union_geometry_single (vector : QgsVectorLayer G)
  (request : QgsFeatureRequest G) (f : QgsFeature G) :
  getFeatures vector request = [f] ->
  union_geometry vector request = Ok (Some (geometry f)).
Proof. intros Hfs. unfold union_geometry. rewrite Hfs. reflexivity. Qed.

(** C8. When no feature of the layer passes the filter, [union_geometry]
    returns [None] and does not raise. *)
Theorem union_geometry_no_match (vector : QgsVectorLayer G)
  (request : QgsFeatureRequest G) :
  (forall f, In f (features vector) -> request f = false) ->
  union_geometry vector request = Ok None.
Proof.
  intros Hno. unfold union_geometry.
  rewrite (getFeatures_none vector request Hno). reflexivity.
Qed.

End UnionGeometry.

(** *** split_by_polygon *)

Lemma new_memory_layer_empty {G} (uri name : string) :
  fields (new_memory_layer (G := G) uri name) = []
  /\ features (new_memory_layer (G := G) uri name) = [].
Proof.
  unfold new_memory_layer. destruct (split_at_query uri). split; reflexivity.
Qed.

Section SplitByPolygon.
Context {G : Type} `{GeometryEngine G} `{FieldIndex}.

Lemma update_attr_list_Raise (attributes : list QVariant) (index : Z)
  (value : QVariant) (add_attribute : bool) (e : exn) :
  _update_attr_list attributes index value add_attribute = Raise e ->
  e = IndexError.
Proof.
  unfold _update_attr_list. destruct add_attribute; [ discriminate | ].
  apply list_setitem_Raise.
Qed.

Lemma result_uri_cases (vector : QgsVectorLayer G) :
  (geometryType vector = 0
   /\ result_uri vector =
        Raise (WrongDataTypeException "Points cant' be split"))
  \/ ((geometryType vector = 1 \/ geometryType vector = 2)
      /\ exists uri, result_uri vector = Ok uri)
  \/ ((geometryType vector <> 0 /\ geometryType vector <> 1
       /\ geometryType vector <> 2)
      /\ data_kind_error (result_uri vector)).
Proof.
  unfold result_uri, data_kind_error.
  destruct (Z.eqb_spec (geometryType vector) 0) as [E0 | E0]; [ auto | ].
  destruct (Z.eqb_spec (geometryType vector) 1) as [E1 | E1];
    [ right; left; eauto | ].
  destruct (Z.eqb_spec (geometryType vector) 2) as [E2 | E2];
    [ right; left; eauto | ].
  right; right. eauto.
Qed.

Lemma copy_fields_spec (vector layer : QgsVectorLayer G)
  (mark_value : mark_directive) :
  fields (fst (copy_fields vector layer mark_value)) =
    fields layer ++ result_fields vector mark_value
  /\ features (fst (copy_fields vector layer mark_value)) = features layer
  /\ snd (copy_fields vector layer mark_value) = field_added vector mark_value.
Proof.
  unfold copy_fields, result_fields, field_added.
  destruct mark_value as [[target_field target_value] |]; simpl.
  - destruct (indexFromName (fields vector) target_field =? -1); simpl;
      rewrite <- ?app_assoc, ?app_nil_r; auto.
  - rewrite app_nil_r. auto.
Qed.

Lemma resolve_target_Ok (layer : QgsVectorLayer G) (mark_value : mark_directive)
  (target_value : QVariant) (target_field_index : option Z) :
  resolve_target layer mark_value = Ok (target_value, target_field_index) ->
  match mark_value with
  | Some (target_field, value) =>
      target_value = value
      /\ target_field_index = Some (fieldNameIndex (fields layer) target_field)
  | None => target_value = QNull /\ target_field_index = None
  end.
Proof.
  unfold resolve_target.
  destruct mark_value as [[target_field value] |].
  - destruct (_ =? -1); [ discriminate | ]. intros [= <- <-]. auto.
  - intros [= <- <-]. auto.
Qed.

Lemma resolve_target_Raise (layer : QgsVectorLayer G)
  (mark_value : mark_directive) (e : exn) :
  resolve_target layer mark_value = Raise e ->
  exists target_field target_value,
    mark_value = Some (target_field, target_value)
    /\ fieldNameIndex (fields layer) target_field = -1
    /\ e = WrongDataTypeException ("Field not found for " ++ target_field)%string.
Proof.
  unfold resolve_target.
  destruct mark_value as [[target_field value] |]; [ | discriminate ].
  destruct (Z.eqb_spec (fieldNameIndex (fields layer) target_field) (-1))
    as [E | E]; [ | discriminate ].
  intros [= <-]. eauto.
Qed.

(** [split_by_polygon] seen as its four stages. *)
Lemma split_by_polygon_stages (vector : QgsVectorLayer G) (polygon : G)
  (request : QgsFeatureRequest G) (mark_value : mark_directive) :
  split_by_polygon vector polygon request mark_value =
    (uri <- result_uri vector ;;
     let layer :=
       fst (copy_fields vector (new_memory_layer uri "intersected") mark_value) in
     target <- resolve_target layer mark_value ;;
     st <- for_each
             (split_feature polygon mark_value (field_added vector mark_value)
                            (fst target) (snd target))
             (getFeatures vector request)
             (SplitState layer None) ;;
     Ok (st_result_layer st)).
Proof.
  unfold split_by_polygon.
  destruct (result_uri vector) as [uri | e]; [ | reflexivity ].
  cbn [bind].
  pose proof (copy_fields_spec vector (new_memory_layer uri "intersected")
                mark_value) as (_ & _ & Hadded).
  destruct (copy_fields vector (new_memory_layer uri "intersected") mark_value)
    as [layer added].
  simpl in Hadded. subst added. cbn [fst].
  destruct (resolve_target layer mark_value) as [[tv tfi] | e]; reflexivity.
Qed.

(** The layer the loop starts from has the result fields and no feature. *)
Lemma start_layer (vector : QgsVectorLayer G) (uri : string)
  (mark_value : mark_directive) :
  fields (fst (copy_fields vector (new_memory_layer uri "intersected")
                 mark_value)) = result_fields vector mark_value
  /\ features (fst (copy_fields vector (new_memory_layer uri "intersected")
                     mark_value)) = [].
Proof.
  pose proof (copy_fields_spec vector (new_memory_layer uri "intersected")
                mark_value) as (Hfields & Hfeatures & _).
  pose proof (new_memory_layer_empty (G := G) uri "intersected") as (E1 & E2).
  rewrite Hfields, Hfeatures, E1, E2. auto.
Qed.

(** **** The exceptions of the loop *)

Lemma emit_Raise (st : split_state G) (g : G) (e : exn) :
  emit st g = Raise e -> e = UnboundLocalError "new_attributes".
Proof.
  unfold emit. intros Hrun.
  apply bind_Raise in Hrun as [Hread | (attrs & _ & [=])].
  apply read_local_Raise in Hread as (_ & ->). reflexivity.
Qed.

Lemma assign_new_attributes_Raise (new_field_added : bool)
  (target_field_index : option Z) (st : split_state G)
  (attributes : list QVariant) (value : QVariant) (e : exn) :
  assign_new_attributes new_field_added target_field_index st attributes value
    = Raise e ->
  name_or_index_error e.
Proof.
  unfold assign_new_attributes. intros Hrun.
  apply bind_Raise in Hrun as [Hread | (index & _ & Hrun)].
  - apply read_local_Raise in Hread as (_ & ->). right. eauto.
  - apply bind_Raise in Hrun as [Hupdate | (attrs & _ & [=])].
    apply update_attr_list_Raise in Hupdate as ->. left. reflexivity.
Qed.

Lemma split_feature_Raise (polygon : G) (mark_value : mark_directive)
  (new_field_added : bool) (target_value : QVariant)
  (target_field_index : option Z) (st : split_state G)
  (initial_feature : QgsFeature G) (e : exn) :
  split_feature polygon mark_value new_field_added target_value
                target_field_index st initial_feature = Raise e ->
  name_or_index_error e.
Proof.
  assert (Hemit : forall (st : split_state G) (g : G) e,
             emit st g = Raise e -> name_or_index_error e).
  { intros st0 g e0 Hrun. apply emit_Raise in Hrun as ->. right. eauto. }
  assert (Hmarked : forall (st : split_state G) value
                           (k : split_state G -> result (split_state G)) e,
             (forall st e, k st = Raise e -> name_or_index_error e) ->
             bind (match mark_value with
                   | Some _ =>
                       assign_new_attributes new_field_added target_field_index
                         st (attributes initial_feature) value
                   | None => Ok st
                   end) k = Raise e ->
             name_or_index_error e).
  { intros st0 value k e0 Hk Hrun.
    apply bind_Raise in Hrun as [Hassign | (st1 & _ & Hrun)];
      [ | exact (Hk _ _ Hrun) ].
    destruct mark_value; [ | discriminate ].
    exact (assign_new_attributes_Raise _ _ _ _ _ _ Hassign). }
  unfold split_feature.
  destruct (intersects polygon (geometry initial_feature)).
  - intros Hrun. apply bind_Raise in Hrun as [Hin | (st1 & _ & Hout)].
    + revert Hin. apply for_each_Raise. intros st0 g e0 _.
      unfold inside_part. destruct (geom_type g =? _); [ | discriminate ].
      apply Hmarked. intros st1 e1. apply Hemit.
    + revert Hout. apply for_each_Raise. intros st0 g e0 _.
      unfold outside_part. destruct (geom_type g =? _); [ | discriminate ].
      intros Hrun. apply bind_Raise in Hrun as [Hassign | (st2 & _ & Hrun)].
      * exact (assign_new_attributes_Raise _ _ _ _ _ _ Hassign).
      * exact (Hemit _ _ _ Hrun).
  - apply Hmarked. intros st1 e1. apply Hemit.
Qed.

(** What [split_by_polygon] can raise: the data-kind error of the first
    or the third stage, or an unbound name or an index error from the
    loop. *)
Lemma split_by_polygon_Raise (vector : QgsVectorLayer G) (polygon : G)
  (request : QgsFeatureRequest G) (mark_value : mark_directive) (e : exn) :
  split_by_polygon vector polygon request mark_value = Raise e ->
  result_uri vector = Raise e
  \/ ((geometryType vector = 1 \/ geometryType vector = 2)
      /\ exists target_field target_value,
           mark_value = Some (target_field, target_value)
           /\ fieldNameIndex (result_fields vector mark_value) target_field = -1
           /\ e = WrongDataTypeException
                    ("Field not found for " ++ target_field)%string)
  \/ name_or_index_error e.
Proof.
  rewrite split_by_polygon_stages. intros Hrun.
  destruct (result_uri_cases vector)
    as [(_ & Huri) | [(Htype & uri & Huri) | (_ & msg & Huri)]];
    rewrite Huri in *; cbn [bind] in Hrun;
    [ injection Hrun as <-; left; reflexivity | 
    | injection Hrun as <-; left; reflexivity ].
  right.
  apply bind_Raise in Hrun as [Htarget | (target & _ & Hrun)].
  - left. split; [ exact Htype | ].
    apply resolve_target_Raise in Htarget as (tf & tv & Hmark & Hindex & ->).
    exists tf, tv. rewrite (proj1 (start_layer vector uri mark_value)) in Hindex.
    auto.
  - right.
    apply bind_Raise in Hrun as [Hloop | (st & _ & [=])].
    revert Hloop. apply for_each_Raise. intros st x e0 _.
    apply split_feature_Raise.
Qed.

(** C4. [split_by_polygon] raises the data-kind error in exactly three
    cases: the layer is a point layer (type 0); the layer's type is none
    of 0, 1, 2; the column of the mark field is not found among the
    fields of the result layer, the mark field included when it was
    added. A point layer raises it whatever the polygon, the filter and
    the mark directive. *)
Theorem split_by_polygon_data_kind_error (vector : QgsVectorLayer G)
  (polygon : G) (request : QgsFeatureRequest G) (mark_value : mark_directive) :
  (data_kind_error (split_by_polygon vector polygon request mark_value)
   <->
   geometryType vector = 0
   \/ (geometryType vector <> 0 /\ geometryType vector <> 1
       /\ geometryType vector <> 2)
   \/ (exists target_field target_value,
          mark_value = Some (target_field, target_value)
          /\ fieldNameIndex (result_fields vector mark_value) target_field = -1))
  /\ (geometryType vector = 0 ->
      split_by_polygon vector polygon request mark_value =
        Raise (WrongDataTypeException "Points cant' be split")).
Proof.
  split.
  - split.
    + intros (msg & Hrun).
      apply split_by_polygon_Raise in Hrun as [Huri | [(_ & Hmark) | Hslip]].
      * destruct (result_uri_cases vector)
          as [(Htype & _) | [(_ & uri & Huri') | (Htype & _)]]; auto.
        congruence.
      * destruct Hmark as (tf & tv & Hmark & Hindex & _). eauto 6.
      * destruct Hslip as [Hslip | (var & Hslip)]; discriminate.
    + intros Hcases. rewrite split_by_polygon_stages.
      destruct (result_uri_cases vector)
        as [(_ & Huri) | [(Htype & uri & Huri) | (_ & msg & Huri)]];
        rewrite Huri; cbn [bind]; [ eexists; reflexivity | | eexists; reflexivity ].
      destruct Hcases as [Hpoint | [Hother | (tf & tv & Hmark & Hindex)]];
        [ lia | lia | ].
      subst mark_value. unfold resolve_target.
      rewrite (proj1 (start_layer vector uri (Some (tf, tv)))), Hindex.
      eexists; reflexivity.
  - intros Hpoint. rewrite split_by_polygon_stages.
    destruct (result_uri_cases vector)
      as [(_ & Huri) | [(Htype & _) | (Htype & _)]]; [ | lia | lia ].
    rewrite Huri. reflexivity.
Qed.

(** **** What the loop keeps *)

Section Invariant.
Variable vector : QgsVectorLayer G.
Variable request : QgsFeatureRequest G.
Variable mark_value : mark_directive.
Variable target_value : QVariant.
Variable target_field_index : option Z.

(** The target as [resolve_target] leaves it on the result fields. *)
Hypothesis resolved :
  match mark_value with
  | Some (target_field, value) =>
      target_value = value
      /\ target_field_index =
           Some (fieldNameIndex (result_fields vector mark_value) target_field)
  | None => target_value = QNull /\ target_field_index = None
  end.

Lemma assign_keeps (st st' : split_state G) (source : QgsFeature G)
  (value : QVariant) :
  In source (getFeatures vector request) ->
  value = target_value \/ value = QInt 0 ->
  split_invariant vector request mark_value st ->
  assign_new_attributes (field_added vector mark_value) target_field_index
    st (attributes source) value = Ok st' ->
  split_invariant vector request mark_value st'.
Proof.
  intros Hsource Hvalue (Hfields & Hfeatures & _) Hrun.
  unfold assign_new_attributes in Hrun.
  apply bind_Ok in Hrun as (index & Hindex & Hrun).
  apply bind_Ok in Hrun as (attrs & Hattrs & [= <-]).
  apply read_local_Ok in Hindex.
  split; [ exact Hfields | split; [ exact Hfeatures | ] ].
  intros attrs' [= <-]. exists source. split; [ exact Hsource | ].
  unfold marked_from. unfold field_added, _update_attr_list in Hattrs.
  destruct mark_value as [[target_field tv] |].
  - destruct resolved as (-> & Hresolved).
    rewrite Hresolved in Hindex. injection Hindex as <-.
    exists value. split; [ exact Hvalue | ].
    destruct (indexFromName (fields vector) target_field =? -1).
    + injection Hattrs as <-. reflexivity.
    + exact Hattrs.
  - destruct resolved as (_ & Hresolved). congruence.
Qed.

Lemma emit_keeps (st st' : split_state G) (g : G) :
  split_invariant vector request mark_value st ->
  emit st g = Ok st' ->
  split_invariant vector request mark_value st'.
Proof.
  intros (Hfields & Hfeatures & Hattrs) Hrun. unfold emit in Hrun.
  apply bind_Ok in Hrun as (attrs & Hread & [= <-]).
  apply read_local_Ok in Hread.
  split; [ exact Hfields | split; [ | exact Hattrs ] ].
  simpl. apply Forall_app. split; [ exact Hfeatures | ].
  constructor; [ | constructor ]. apply Hattrs. exact Hread.
Qed.

Lemma marked_emit_keeps (st st' : split_state G) (source : QgsFeature G)
  (value : QVariant) (g : G) :
  In source (getFeatures vector request) ->
  value = target_value \/ value = QInt 0 ->
  split_invariant vector request mark_value st ->
  bind (match mark_value with
        | Some _ =>
            assign_new_attributes (field_added vector mark_value)
              target_field_index st (attributes source) value
        | None => Ok st
        end)
       (fun st => emit st g) = Ok st' ->
  split_invariant vector request mark_value st'.
Proof.
  intros Hsource Hvalue Hkept Hrun.
  apply bind_Ok in Hrun as (st1 & Hassign & Hemit).
  apply (emit_keeps st1 st' g); [ | exact Hemit ].
  pose proof (assign_keeps st st1 source value Hsource Hvalue Hkept)
    as Hassigned.
  destruct mark_value as [mark |].
  - exact (Hassigned Hassign).
  - injection Hassign as <-. exact Hkept.
Qed.

Lemma split_feature_keeps (polygon : G) (st st' : split_state G)
  (source : QgsFeature G) :
  In source (getFeatures vector request) ->
  split_invariant vector request mark_value st ->
  split_feature polygon mark_value (field_added vector mark_value)
    target_value target_field_index st source = Ok st' ->
  split_invariant vector request mark_value st'.
Proof.
  intros Hsource Hkept Hrun. unfold split_feature in Hrun.
  destruct (intersects polygon (geometry source)).
  - apply bind_Ok in Hrun as (st1 & Hin & Hout).
    assert (Hkept1 : split_invariant vector request mark_value st1).
    { revert Hkept Hin. apply for_each_invariant.
      intros st0 g st0' _ Hkept0. unfold inside_part.
      destruct (geom_type g =? _); [ | intros [= <-]; exact Hkept0 ].
      apply marked_emit_keeps; auto. }
    revert Hkept1 Hout. apply for_each_invariant.
    intros st0 g st0' _ Hkept0. unfold outside_part.
    destruct (geom_type g =? _); [ | intros [= <-]; exact Hkept0 ].
    intros Hrun. apply bind_Ok in Hrun as (st2 & Hassign & Hemit).
    apply (emit_keeps st2 st0' g); [ | exact Hemit ].
    apply (assign_keeps st0 st2 source (QInt 0)); auto.
  - revert Hrun. apply marked_emit_keeps; auto.
Qed.

End Invariant.

Lemma marked_from_length (vector : QgsVectorLayer G)
  (mark_value : mark_directive) (source emitted : list QVariant) :
  marked_from vector mark_value source emitted ->
  length emitted =
    (length source + if field_added vector mark_value then 1 else 0)%nat.
Proof.
  unfold marked_from, field_added.
  destruct mark_value as [[target_field target_value] |]; [ | intros [] ].
  intros (value & _ & Hmarked).
  destruct (indexFromName (fields vector) target_field =? -1).
  - subst emitted. rewrite length_app. reflexivity.
  - apply list_setitem_length in Hmarked. lia.
Qed.

Lemma result_fields_length (vector : QgsVectorLayer G)
  (mark_value : mark_directive) :
  length (result_fields vector mark_value) =
    (length (fields vector) + if field_added vector mark_value then 1 else 0)%nat.
Proof.
  unfold result_fields, field_added. rewrite length_app.
  destruct mark_value as [[target_field target_value] |]; [ | reflexivity ].
  destruct (indexFromName (fields vector) target_field =? -1); reflexivity.
Qed.

(** The layer that [split_by_polygon] returns satisfies the invariant of
    its loop. *)
Lemma split_by_polygon_invariant (vector : QgsVectorLayer G) (polygon : G)
  (request : QgsFeatureRequest G) (mark_value : mark_directive)
  (out : QgsVectorLayer G) :
  split_by_polygon vector polygon request mark_value = Ok out ->
  fields out = result_fields vector mark_value
  /\ Forall (fun f => emitted_from vector request mark_value (attributes f))
            (features out).
Proof.
  rewrite split_by_polygon_stages. intros Hrun.
  apply bind_Ok in Hrun as (uri & _ & Hrun). cbv zeta in Hrun.
  pose proof (start_layer vector uri mark_value) as (Hfields & Hfeatures).
  remember (fst (copy_fields vector (new_memory_layer uri "intersected")
                   mark_value)) as layer eqn:Elayer.
  clear Elayer.
  apply bind_Ok in Hrun as ([tv tfi] & Htarget & Hrun).
  apply bind_Ok in Hrun as (st & Hloop & [= <-]).
  apply resolve_target_Ok in Htarget. rewrite Hfields in Htarget.
  cbn [fst snd] in Hloop.
  assert (Hkept : split_invariant vector request mark_value st).
  { revert Hloop. apply for_each_invariant.
    - intros st0 source st0' Hsource Hkept0.
      apply (split_feature_keeps vector request mark_value tv tfi Htarget);
        assumption.
    - split; [ exact Hfields | split ].
      + simpl. rewrite Hfeatures. constructor.
      + intros attrs [=]. }
  destruct Hkept as (Hf & Hfs & _). auto.
Qed.

(** What an item assignment that succeeds leaves in the list. *)
Lemma list_setitem_Ok {A} (l l' : list A) (index : Z) (value : A) :
  list_setitem l index value = Ok l' ->
  length l' = length l
  /\ (item_position index (length l) < length l)%nat
  /\ l' !! item_position index (length l) = Some value
  /\ forall other : nat,
       other <> item_position index (length l) -> l' !! other = l !! other.
Proof.
  unfold list_setitem, item_position.
  set (i := if index <? 0 then index + Z.of_nat (length l) else index).
  destruct ((0 <=? i) && (i <? Z.of_nat (length l))) eqn:Erange;
    [ | discriminate ].
  apply andb_true_iff in Erange as (Hlow & Hhigh).
  apply Z.leb_le in Hlow. apply Z.ltb_lt in Hhigh.
  intros [= <-].
  assert (Hin : (Z.to_nat i < length l)%nat) by lia.
  split; [ apply length_insert | split; [ exact Hin | split ] ].
  - apply list_lookup_insert_eq. exact Hin.
  - intros other Hother. apply list_lookup_insert_ne. congruence.
Qed.

Lemma marked_from_as (vector : QgsVectorLayer G) (mark_value : mark_directive)
  (source emitted : list QVariant) :
  marked_from vector mark_value source emitted ->
  marked_as vector mark_value source emitted.
Proof.
  unfold marked_from, marked_as.
  destruct mark_value as [[target_field target_value] |]; [ | intros [] ].
  intros (value & Hvalue & Hmarked). exists value.
  split; [ exact Hvalue | ].
  destruct (indexFromName (fields vector) target_field =? -1);
    [ exact Hmarked | ].
  apply list_setitem_Ok. exact Hmarked.
Qed.

(** C9. In the layer [split_by_polygon] returns, the fields are those of
    the source, followed by the mark field as an integer field when the
    directive names a field the source does not have. The attribute list
    of every feature of the layer comes from that of a source feature:
    when the field was added it is the source list followed by the mark
    (one value longer); otherwise it is as long as the source list, holds
    the mark in the column of the mark field, and holds in every other
    column what the source list holds there. The mark is the directive's
    value or 0. When the source features have one attribute per source
    field, every feature of the result has one attribute per field of the
    result. *)
Theorem split_attribute_arity (vector : QgsVectorLayer G) (polygon : G)
  (request : QgsFeatureRequest G) (mark_value : mark_directive)
  (out : QgsVectorLayer G) :
  split_by_polygon vector polygon request mark_value = Ok out ->
  fields out = result_fields vector mark_value
  /\ Forall
       (fun f =>
          exists source,
            In source (getFeatures vector request)
            /\ marked_as vector mark_value (attributes source) (attributes f)
            /\ length (attributes f) =
                 (length (attributes source)
                  + if field_added vector mark_value then 1 else 0)%nat)
       (features out)
  /\ ((forall source,
          In source (getFeatures vector request) ->
          length (attributes source) = length (fields vector)) ->
      Forall (fun f => length (attributes f) = length (fields out))
             (features out)).
Proof.
  intros Hrun.
  apply split_by_polygon_invariant in Hrun as (Hfields & Hfeatures).
  split; [ exact Hfields | split ].
  - eapply Forall_impl; [ exact Hfeatures | ].
    intros f (source & Hsource & Hmarked). exists source.
    split; [ exact Hsource | split ].
    + apply marked_from_as. exact Hmarked.
    + apply marked_from_length. exact Hmarked.
  - intros Hwell. eapply Forall_impl; [ exact Hfeatures | ].
    intros f (source & Hsource & Hmarked).
    rewrite Hfields, result_fields_length, <- (Hwell source Hsource).
    apply marked_from_length. exact Hmarked.
Qed.

(** Without a mark directive no feature is ever added to the result:
    every turn that would add one reads [new_attributes] unbound. *)
Lemma split_without_mark_is_empty (vector : QgsVectorLayer G) (polygon : G)
  (request : QgsFeatureRequest G) (out : QgsVectorLayer G) :
  split_by_polygon vector polygon request None = Ok out ->
  features out = [].
Proof.
  intros Hrun. apply split_by_polygon_invariant in Hrun as (_ & Hfeatures).
  destruct (features out) as [| f fs]; [ reflexivity | ].
  inversion Hfeatures as [| ? ? (source & _ & []) _].
Qed.

(** Without a mark directive, a first selected feature that does not
    intersect the polygon ends the call in an UnboundLocalError. *)
Lemma split_without_mark_raises (vector : QgsVectorLayer G) (polygon : G)
  (request : QgsFeatureRequest G) (f : QgsFeature G)
  (fs : list (QgsFeature G)) :
  geometryType vector = 1 \/ geometryType vector = 2 ->
  getFeatures vector request = f :: fs ->
  intersects polygon (geometry f) = false ->
  split_by_polygon vector polygon request None =
    Raise (UnboundLocalError "new_attributes").
Proof.
  intros Htype Hfs Hapart. rewrite split_by_polygon_stages.
  destruct (result_uri_cases vector)
    as [(Hpoint & _) | [(_ & uri & ->) | (Hother & _)]]; [ lia | | lia ].
  cbn [bind resolve_target fst snd]. rewrite Hfs. cbn [for_each].
  unfold split_feature at 1. rewrite Hapart. reflexivity.
Qed.

(** [split_by_polygon] raises nothing but the data-kind error, an
    UnboundLocalError and an IndexError. *)
Lemma split_by_polygon_exceptions (vector : QgsVectorLayer G) (polygon : G)
  (request : QgsFeatureRequest G) (mark_value : mark_directive) (e : exn) :
  split_by_polygon vector polygon request mark_value = Raise e ->
  (exists msg, e = WrongDataTypeException msg) \/ name_or_index_error e.
Proof.
  intros Hrun.
  apply split_by_polygon_Raise in Hrun as [Huri | [(_ & Hmark) | Hslip]].
  - left.
    destruct (result_uri_cases vector)
      as [(_ & Huri') | [(_ & uri & Huri') | (_ & msg & Huri')]];
      rewrite Huri' in Huri; [ | discriminate | ];
      injection Huri as <-; eauto.
  - destruct Hmark as (tf & tv & _ & _ & ->). left. eauto.
  - right. exact Hslip.
Qed.

(** **** The layer's kind and reference system *)

Lemma split_loop_layer (Q : QgsVectorLayer G -> Prop) (polygon : G)
  (mark_value : mark_directive) (new_field_added : bool)
  (target_value : QVariant) (target_field_index : option Z)
  (xs : list (QgsFeature G)) (st st' : split_state G) :
  (forall layer new, Q layer -> Q (addFeatures layer new)) ->
  Q (st_result_layer st) ->
  for_each (split_feature polygon mark_value new_field_added target_value
                          target_field_index) xs st = Ok st' ->
  Q (st_result_layer st').
Proof.
  intros Hadd.
  assert (Hemit : forall (st st' : split_state G) g,
             Q (st_result_layer st) -> emit st g = Ok st' ->
             Q (st_result_layer st')).
  { intros st0 st0' g HQ Hrun. unfold emit in Hrun.
    apply bind_Ok in Hrun as (attrs & _ & [= <-]). simpl. apply Hadd, HQ. }
  assert (Hassign : forall (st st' : split_state G) attributes value,
             Q (st_result_layer st) ->
             assign_new_attributes new_field_added target_field_index st
               attributes value = Ok st' ->
             Q (st_result_layer st')).
  { intros st0 st0' attributes value HQ Hrun.
    unfold assign_new_attributes in Hrun.
    apply bind_Ok in Hrun as (index & _ & Hrun).
    apply bind_Ok in Hrun as (attrs & _ & [= <-]). exact HQ. }
  assert (Hmarked : forall (st st' : split_state G) attributes value g,
             Q (st_result_layer st) ->
             bind (match mark_value with
                   | Some _ =>
                       assign_new_attributes new_field_added target_field_index
                         st attributes value
                   | None => Ok st
                   end) (fun st => emit st g) = Ok st' ->
             Q (st_result_layer st')).
  { intros st0 st0' attributes value g HQ Hrun.
    apply bind_Ok in Hrun as (st1 & Hfirst & Hsecond).
    apply (Hemit st1 st0' g); [ | exact Hsecond ].
    destruct mark_value; [ exact (Hassign _ _ _ _ HQ Hfirst) | ].
    injection Hfirst as <-. exact HQ. }
  apply (for_each_invariant _ (fun st => Q (st_result_layer st))).
  intros st0 source st0' _ HQ Hrun. unfold split_feature in Hrun.
  destruct (intersects polygon (geometry source)).
  - apply bind_Ok in Hrun as (st1 & Hin & Hout).
    assert (HQ1 : Q (st_result_layer st1)).
    { revert HQ Hin.
      apply (for_each_invariant _ (fun st => Q (st_result_layer st))).
      intros st2 g st2' _ HQ2. unfold inside_part.
      destruct (geom_type g =? _); [ | intros [= <-]; exact HQ2 ].
      apply Hmarked, HQ2. }
    revert HQ1 Hout.
    apply (for_each_invariant _ (fun st => Q (st_result_layer st))).
    intros st2 g st2' _ HQ2. unfold outside_part.
    destruct (geom_type g =? _); [ | intros [= <-]; exact HQ2 ].
    intros Hrun. apply bind_Ok in Hrun as (st3 & Hfirst & Hsecond).
    exact (Hemit _ _ _ (Hassign _ _ _ _ HQ2 Hfirst) Hsecond).
  - revert Hrun. apply Hmarked, HQ.
Qed.

(** The layer [split_by_polygon] returns has the geometry type and the
    reference system of the source layer. *)
Lemma split_by_polygon_same_kind (vector : QgsVectorLayer G) (polygon : G)
  (request : QgsFeatureRequest G) (mark_value : mark_directive)
  (out : QgsVectorLayer G) :
  split_by_polygon vector polygon request mark_value = Ok out ->
  geometryType out = geometryType vector /\ crs out = crs vector.
Proof.
  unfold split_by_polygon. intros Hrun.
  apply bind_Ok in Hrun as (uri & Huri & Hrun).
  assert (Hstart : geometryType (new_memory_layer (G := G) uri "intersected")
                   = geometryType vector
                   /\ crs (new_memory_layer (G := G) uri "intersected")
                      = crs vector).
  { unfold result_uri in Huri.
    destruct (Z.eqb_spec (geometryType vector) 0); [ discriminate | ].
    destruct (Z.eqb_spec (geometryType vector) 1) as [-> | _];
      [ injection Huri as <-; split; reflexivity | ].
    destruct (Z.eqb_spec (geometryType vector) 2) as [-> | _];
      [ injection Huri as <-; split; reflexivity | discriminate ]. }
  destruct (copy_fields vector (new_memory_layer uri "intersected") mark_value)
    as [layer added] eqn:Ecopy.
  assert (Hlayer : geometryType layer = geometryType vector
                   /\ crs layer = crs vector).
  { unfold copy_fields in Ecopy.
    destruct mark_value as [[tf tv] |];
      [ destruct (_ =? -1) | ]; injection Ecopy as <- _; exact Hstart. }
  apply bind_Ok in Hrun as ([tv tfi] & _ & Hrun).
  apply bind_Ok in Hrun as (st & Hloop & [= <-]).
  revert Hloop.
  apply (split_loop_layer
           (fun layer => geometryType layer = geometryType vector
                         /\ crs layer = crs vector));
    [ intros l new Hl; exact Hl | exact Hlayer ].
Qed.

(** **** One turn of the loop under a mark directive *)

Lemma addFeatures_nil (layer : QgsVectorLayer G) : addFeatures layer [] = layer.
Proof. destruct layer. unfold addFeatures. simpl. rewrite app_nil_r. reflexivity. Qed.

Lemma addFeatures_app (layer : QgsVectorLayer G) (xs ys : list (QgsFeature G)) :
  addFeatures (addFeatures layer xs) ys = addFeatures layer (xs ++ ys).
Proof. unfold addFeatures. simpl. rewrite app_assoc. reflexivity. Qed.

(** A loop over parts that adds every part of the wanted type with the
    same attributes. *)
Lemma parts_loop (body : split_state G -> G -> result (split_state G))
  (attrs : list QVariant) (geometry_type : Z) (parts : list G) :
  (forall st g,
      body st g =
        if geom_type g =? geometry_type
        then Ok (SplitState (addFeatures (st_result_layer st) [Feature g attrs])
                            (Some attrs))
        else Ok st) ->
  forall st, exists bound,
    for_each body parts st =
      Ok (SplitState
            (addFeatures (st_result_layer st)
               (map (fun g => Feature g attrs)
                    (List.filter (fun g => geom_type g =? geometry_type) parts)))
            bound).
Proof.
  intros Hbody. induction parts as [| g parts IH]; intros st.
  - exists (st_new_attributes st). simpl. rewrite addFeatures_nil.
    destruct st; reflexivity.
  - cbn [for_each List.filter]. rewrite Hbody.
    destruct (geom_type g =? geometry_type); cbn [bind]; [ | apply IH ].
    destruct (IH (SplitState
                    (addFeatures (st_result_layer st) [Feature g attrs])
                    (Some attrs))) as (bound & ->).
    exists bound. cbn [st_result_layer]. rewrite addFeatures_app. reflexivity.
Qed.

Lemma marked_emit (tv value : QVariant) (target_field : string)
  (new_field_added : bool) (index : Z) (st : split_state G)
  (attributes attrs : list QVariant) (g : G) :
  _update_attr_list attributes index value new_field_added = Ok attrs ->
  bind (match Some (target_field, tv) with
        | Some _ =>
            assign_new_attributes new_field_added (Some index) st attributes
              value
        | None => Ok st
        end) (fun st => emit st g)
  = Ok (SplitState (addFeatures (st_result_layer st) [Feature g attrs])
                   (Some attrs)).
Proof.
  intros Hattrs. unfold assign_new_attributes. cbn [read_local bind].
  rewrite Hattrs. reflexivity.
Qed.

(** Under a mark directive, a feature that does not intersect the polygon
    adds one feature to the result: its own geometry, with its attributes
    marked 0. *)
Lemma split_feature_apart (polygon : G) (target_field : string)
  (target_value : QVariant) (new_field_added : bool) (index : Z)
  (st : split_state G) (f : QgsFeature G) (marked : list QVariant) :
  intersects polygon (geometry f) = false ->
  _update_attr_list (attributes f) index (QInt 0) new_field_added = Ok marked ->
  split_feature polygon (Some (target_field, target_value)) new_field_added
    target_value (Some index) st f
  = Ok (SplitState
          (addFeatures (st_result_layer st) [Feature (geometry f) marked])
          (Some marked)).
Proof.
  intros Hapart Hmarked. unfold split_feature. rewrite Hapart.
  apply (marked_emit target_value (QInt 0) target_field). exact Hmarked.
Qed.

(** Under a mark directive, a feature that intersects the polygon adds
    one feature per part of the intersection that has the feature's
    geometry type, with the mark value, and then one per such part of the
    symmetric difference, with mark 0; parts of another type add
    nothing. *)
Lemma split_feature_across (polygon : G) (target_field : string)
  (target_value : QVariant) (new_field_added : bool) (index : Z)
  (st : split_state G) (f : QgsFeature G) (inside outside : list QVariant) :
  intersects polygon (geometry f) = true ->
  _update_attr_list (attributes f) index target_value new_field_added
    = Ok inside ->
  _update_attr_list (attributes f) index (QInt 0) new_field_added
    = Ok outside ->
  exists bound,
    split_feature polygon (Some (target_field, target_value)) new_field_added
      target_value (Some index) st f
    = Ok (SplitState
            (addFeatures (st_result_layer st)
               (map (fun g => Feature g inside)
                    (List.filter
                       (fun g => geom_type g =? geom_type (geometry f))
                       (asGeometryCollection
                          (intersection (geometry f) polygon)))
                ++ map (fun g => Feature g outside)
                     (List.filter
                        (fun g => geom_type g =? geom_type (geometry f))
                        (asGeometryCollection
                           (symDifference (geometry f) polygon)))))
            bound).
Proof.
  intros Hacross Hinside Houtside. unfold split_feature. rewrite Hacross.
  destruct (parts_loop
              (inside_part (Some (target_field, target_value)) new_field_added
                 target_value (Some index) (attributes f)
                 (geom_type (geometry f)))
              inside (geom_type (geometry f))
              (asGeometryCollection (intersection (geometry f) polygon)))
    with (st := st) as (bound1 & ->).
  { intros st0 g. unfold inside_part.
    destruct (geom_type g =? _); [ | reflexivity ].
    apply (marked_emit target_value target_value target_field).
    exact Hinside. }
  cbn [bind].
  destruct (parts_loop
              (outside_part new_field_added (Some index) (attributes f)
                 (geom_type (geometry f)))
              outside (geom_type (geometry f))
              (asGeometryCollection (symDifference (geometry f) polygon)))
    with (st := SplitState
                  (addFeatures (st_result_layer st)
                     (map (fun g => Feature g inside)
                        (List.filter
                           (fun g => geom_type g =? geom_type (geometry f))
                           (asGeometryCollection
                              (intersection (geometry f) polygon)))))
                  bound1)
    as (bound2 & ->).
  { intros st0 g. unfold outside_part.
    destruct (geom_type g =? _); [ | reflexivity ].
    unfold assign_new_attributes. cbn [read_local bind].
    rewrite Houtside. reflexivity. }
  exists bound2. cbn [st_result_layer]. rewrite addFeatures_app. reflexivity.
Qed.

End SplitByPolygon.

End VectorFacts.

(** ** The functions on concrete layers *)

Module Examples.
Import Py VectorTools Cells VectorFacts.

(** A filter that lets no parcel through. *)
Lemma union_geometry_no_match_witness :
  union_geometry (parcels [middle; far_away]) (fun _ => false) = Ok None.
Proof.
  apply (union_geometry_no_match (parcels [middle; far_away]) (fun _ => false)).
  intros f _. reflexivity.
Defined.

(** A point layer with a feature to split. *)
Lemma split_by_polygon_data_kind_error_witness :
  split_by_polygon (Layer "wells" 0 "EPSG:4326" [] [Feature middle []])
                   square3 default_request (Some ("inside", QInt 1))
  = Raise (WrongDataTypeException "Points cant' be split").
Proof.
  apply (split_by_polygon_data_kind_error
           (Layer "wells" 0 "EPSG:4326" [] [Feature middle []])
           square3 default_request (Some ("inside", QInt 1))).
  reflexivity.
Defined.

(** A parcel astride the border of the square and one far away: marked 1
    in the new field "inside", and marked 9 in the existing field "id",
    whose old values 0 and 1 are written over. *)
Lemma split_attribute_arity_witness :
  (split_by_polygon (parcels [astride; far_away]) square3 default_request
                    (Some ("inside", QInt 1))
   = Ok (Layer "intersected" 2 "EPSG:4326"
           [Field "id" QVariant_Int; Field "inside" QVariant_Int]
           [ Feature [(2, 1)] [QInt 0; QInt 1];
             Feature [(3, 1); (0, 0); (1, 0); (2, 0); (0, 1); (1, 1);
                      (0, 2); (1, 2); (2, 2)] [QInt 0; QInt 0];
             Feature [(7, 7)] [QInt 1; QInt 0] ])
   /\ Forall (fun f => length (attributes f) = 2%nat)
        [ Feature [(2, 1)] [QInt 0; QInt 1];
          Feature [(3, 1); (0, 0); (1, 0); (2, 0); (0, 1); (1, 1);
                   (0, 2); (1, 2); (2, 2)] [QInt 0; QInt 0];
          Feature [(7, 7)] [QInt 1; QInt 0] ])
  /\ (split_by_polygon (parcels [astride; far_away]) square3 default_request
                       (Some ("id", QInt 9))
      = Ok (Layer "intersected" 2 "EPSG:4326" [Field "id" QVariant_Int]
              [ Feature [(2, 1)] [QInt 9];
                Feature [(3, 1); (0, 0); (1, 0); (2, 0); (0, 1); (1, 1);
                         (0, 2); (1, 2); (2, 2)] [QInt 0];
                Feature [(7, 7)] [QInt 0] ])
      /\ Forall
           (fun f =>
              exists source,
                In source
                   (getFeatures (parcels [astride; far_away]) default_request)
                /\ marked_as (parcels [astride; far_away])
                     (Some ("id", QInt 9)) (attributes source) (attributes f)
                /\ length (attributes f) = (length (attributes source) + 0)%nat)
           [ Feature [(2, 1)] [QInt 9];
             Feature [(3, 1); (0, 0); (1, 0); (2, 0); (0, 1); (1, 1);
                      (0, 2); (1, 2); (2, 2)] [QInt 0];
             Feature [(7, 7)] [QInt 0] ]).
Proof.
  assert (Hnew :
    split_by_polygon (parcels [astride; far_away]) square3 default_request
                     (Some ("inside", QInt 1))
    = Ok (Layer "intersected" 2 "EPSG:4326"
            [Field "id" QVariant_Int; Field "inside" QVariant_Int]
            [ Feature [(2, 1)] [QInt 0; QInt 1];
              Feature [(3, 1); (0, 0); (1, 0); (2, 0); (0, 1); (1, 1);
                       (0, 2); (1, 2); (2, 2)] [QInt 0; QInt 0];
              Feature [(7, 7)] [QInt 1; QInt 0] ])) by reflexivity.
  assert (Hold :
    split_by_polygon (parcels [astride; far_away]) square3 default_request
                     (Some ("id", QInt 9))
    = Ok (Layer "intersected" 2 "EPSG:4326" [Field "id" QVariant_Int]
            [ Feature [(2, 1)] [QInt 9];
              Feature [(3, 1); (0, 0); (1, 0); (2, 0); (0, 1); (1, 1);
                       (0, 2); (1, 2); (2, 2)] [QInt 0];
              Feature [(7, 7)] [QInt 0] ])) by reflexivity.
  split; (split; [ assumption | ]).
  - apply (split_attribute_arity _ _ _ _ _ Hnew).
    intros source [<- | [<- | []]]; reflexivity.
  - exact (proj1 (proj2 (split_attribute_arity _ _ _ _ _ Hold))).
Defined.

(** C3, the code at the failing input. A layer whose only parcel has an
    outline that overlaps itself: [union_geometry] returns that geometry,
    which is not valid. The same happens when a valid parcel follows it:
    no combination with the first geometry is valid, so it is returned. *)
Theorem union_geometry_returns_invalid :
  isGeosValid overlapping = false
  /\ union_geometry (parcels [overlapping]) default_request
     = Ok (Some overlapping)
  /\ union_geometry (parcels [overlapping; middle]) default_request
     = Ok (Some overlapping).
Proof. repeat split. Qed.

(** C5, the code at the failing input. A parcel that does not intersect
    the splitting polygon, and no mark directive: the call ends in an
    UnboundLocalError and returns no layer. *)
Theorem split_apart_without_mark :
  intersects square3 far_away = false
  /\ split_by_polygon (parcels [far_away]) square3 default_request None
     = Raise (UnboundLocalError "new_attributes").
Proof. split; reflexivity. Qed.

(** C6, the code at the failing input. A parcel in the middle of the
    splitting polygon (their intersection is the parcel itself), marked
    with 1 in a new field: besides the inside part, the result holds a
    second feature, the rest of the polygon around the parcel, with the
    parcel's attributes and mark 0. Without a mark directive the same
    split ends in an UnboundLocalError. *)
Theorem split_inside_emits_outside_part :
  intersection middle square3 = middle
  /\ split_by_polygon (parcels [middle]) square3 default_request
                      (Some ("inside", QInt 1))
     = Ok (Layer "intersected" 2 "EPSG:4326"
             [Field "id" QVariant_Int; Field "inside" QVariant_Int]
             [ Feature [(1, 1)] [QInt 0; QInt 1];
               Feature [(0, 0); (1, 0); (2, 0); (0, 1); (2, 1);
                        (0, 2); (1, 2); (2, 2)] [QInt 0; QInt 0] ])
  /\ split_by_polygon (parcels [middle]) square3 default_request None
     = Raise (UnboundLocalError "new_attributes").
Proof. repeat split. Qed.

(** A valid first parcel: the union is valid, the overlapping parcel and
    the empty one are left out. *)
Lemma union_geometry_valid_start_witness :
  exists g,
    union_geometry (parcels [middle; overlapping; []; astride]) default_request
    = Ok (Some g)
    /\ isGeosValid g = true.
Proof.
  apply (union_geometry_valid_start
           (parcels [middle; overlapping; []; astride]) default_request
           (Feature middle [QInt 0])
           [Feature overlapping [QInt 1]; Feature [] [QInt 2];
            Feature astride [QInt 3]]);
    reflexivity.
Defined.

Lemma union_geometry_example :
  union_geometry (parcels [middle; overlapping; []; astride]) default_request
  = Ok (Some [(1, 1); (2, 1); (3, 1)]).
Proof. reflexivity. Qed.

Lemma split_by_polygon_exceptions_witness :
  (exists msg, UnboundLocalError "new_attributes" = WrongDataTypeException msg)
  \/ name_or_index_error (UnboundLocalError "new_attributes").
Proof.
  apply (split_by_polygon_exceptions (parcels [far_away]) square3
           default_request None).
  reflexivity.
Defined.

Lemma split_without_mark_raises_witness :
  split_by_polygon (parcels [far_away; middle]) square3 default_request None
  = Raise (UnboundLocalError "new_attributes").
Proof.
  apply (split_without_mark_raises (parcels [far_away; middle]) square3
           default_request (Feature far_away [QInt 0])
           [Feature middle [QInt 1]]);
    [ right; reflexivity | reflexivity | reflexivity ].
Defined.

(** Without a mark directive only a layer that adds nothing is split
    without an exception. *)
Lemma split_without_mark_is_empty_witness :
  features (Layer (G := region) "intersected" 2 "EPSG:4326"
              [Field "id" QVariant_Int] []) = [].
Proof.
  apply (split_without_mark_is_empty (parcels []) square3 default_request).
  reflexivity.
Defined.

Lemma split_by_polygon_same_kind_witness :
  geometryType (Layer (G := region) "intersected" 2 "EPSG:4326"
                  [Field "id" QVariant_Int; Field "inside" QVariant_Int]
                  [Feature [(7, 7)] [QInt 0; QInt 0]])
  = geometryType (parcels [far_away])
  /\ crs (Layer (G := region) "intersected" 2 "EPSG:4326"
            [Field "id" QVariant_Int; Field "inside" QVariant_Int]
            [Feature [(7, 7)] [QInt 0; QInt 0]])
     = crs (parcels [far_away]).
Proof.
  apply (split_by_polygon_same_kind (parcels [far_away]) square3
           default_request (Some ("inside", QInt 1))).
  reflexivity.
Defined.

Lemma split_feature_apart_witness :
  split_feature square3 (Some ("inside", QInt 1)) true (QInt 1) (Some 1)
    (SplitState (parcels []) None) (Feature far_away [QInt 0])
  = Ok (SplitState
          (addFeatures (parcels []) [Feature far_away [QInt 0; QInt 0]])
          (Some [QInt 0; QInt 0])).
Proof.
  apply (split_feature_apart square3 "inside" (QInt 1) true 1
           (SplitState (parcels []) None) (Feature far_away [QInt 0])
           [QInt 0; QInt 0]);
    reflexivity.
Defined.

Lemma split_feature_across_witness :
  exists bound,
    split_feature square3 (Some ("id", QInt 9)) false (QInt 9) (Some 0)
      (SplitState (parcels []) None) (Feature astride [QInt 0])
    = Ok (SplitState
            (addFeatures (parcels [])
               ([Feature [(2, 1)] [QInt 9]]
                ++ [Feature [(3, 1); (0, 0); (1, 0); (2, 0); (0, 1); (1, 1);
                             (0, 2); (1, 2); (2, 2)] [QInt 0]]))
            bound).
Proof.
  exact (split_feature_across square3 "id" (QInt 9) false 0
           (SplitState (parcels []) None) (Feature astride [QInt 0])
           [QInt 9] [QInt 0] eq_refl eq_refl eq_refl).
Defined.

(** [points_to_rectangles] on a layer with one point at (1, 2). *)
Lemma points_to_rectangles_example :
  points_to_rectangles
    (Layer "posts" 0 "EPSG:4326" [Field "id" QVariant_Int]
       [Feature (PointShape (Point 1 2)) [QInt 5]])
    0.5 0.25
  = Layer "polygons" 2 "EPSG:4326" [Field "id" QVariant_Int]
      [Feature
         (PolygonShape
            [[Point 1 2; Point 1.5 2; Point 1.5 1.75; Point 1 1.75]])
         [QInt 5]].
Proof. reflexivity. Qed.

End Examples.

(** * Further properties *)

(** ** The gender postprocessor: missing keys, values that are no
    number, and what [process] leaves alone *)

Module GenderEdges.
Import Py PyFacts Gender.

(** From an object with both scalars [None], [setup] with a mapping that
    lacks the population raises KeyError for it, and with a mapping that
    holds the population but lacks the ratio raises KeyError for the
    ratio. *)
Lemma setup_missing_key (self : GenderPostprocessor)
  (params : gmap string pyval) :
  population_total self = PyNone ->
  female_ratio self = PyNone ->
  (params !! "population_total" = None ->
   setup self params = Raise (KeyError "population_total"))
  /\ (forall pt,
         params !! "population_total" = Some pt ->
         params !! "female_ratio" = None ->
         setup self params = Raise (KeyError "female_ratio")).
Proof.
  intros Hpt Hfr.
  assert (Hsetup : setup self params =
                     (pt <- getitem params "population_total" ;;
                      fr <- getitem params "female_ratio" ;;
                      Ok (Build (results self) pt fr))).
  { unfold setup, AbstractPostprocessor_setup. cbn [bind].
    rewrite Hpt, Hfr. reflexivity. }
  rewrite Hsetup. unfold getitem. split.
  - intros ->. reflexivity.
  - intros pt -> ->. reflexivity.
Qed.

Lemma setup_missing_key_witness :
  setup init ∅ = Raise (KeyError "population_total")
  /\ setup init {[ "population_total" := PyInt 1000 ]}
     = Raise (KeyError "female_ratio").
Proof.
  destruct (setup_missing_key init ∅ eq_refl eq_refl) as (Hfirst & _).
  destruct (setup_missing_key init {[ "population_total" := PyInt 1000 ]}
              eq_refl eq_refl) as (_ & Hsecond).
  split; [ apply Hfirst; reflexivity | ].
  apply (Hsecond (PyInt 1000)); reflexivity.
Defined.

(** The indicators [process] appends do not depend on the results that
    are already there, and those stay in front, untouched: [process] on any
    results list is [process] on the empty list, with the old results put
    before the new ones. *)
Lemma process_frame (tr : string -> string) (old : list indicator)
  (pt fr : pyval) :
  process tr (Build old pt fr) =
    (fresh <- process tr (Build [] pt fr) ;;
     Ok (Build (old ++ results fresh) pt fr)).
Proof.
  unfold process, AbstractPostprocessor_process. cbn [bind].
  cbn [population_total female_ratio].
  destruct (is_None pt || is_None fr); [ reflexivity | ]. cbn [bind].
  unfold _calculate_total. cbn [population_total female_ratio].
  destruct (int_round pt) as [total | e]; [ | reflexivity ]. cbn [bind].
  unfold _calculate_females. cbn [population_total female_ratio _append_result results].
  destruct (py_mul pt fr) as [a | e]; [ | reflexivity ]. cbn [bind].
  destruct (int_round a) as [females | e]; [ | reflexivity ]. cbn [bind].
  unfold _calculate_weekly_hygene_packs.
  cbn [population_total female_ratio _append_result results].
  destruct (py_mul pt fr) as [a1 | e]; [ | reflexivity ]. cbn [bind].
  destruct (py_mul a1 (PyFloat 0.7937)) as [b1 | e]; [ | reflexivity ].
  cbn [bind].
  destruct (py_div (PyInt 7) (PyInt 7)) as [week | e]; [ | reflexivity ].
  cbn [bind].
  destruct (py_mul b1 week) as [c1 | e]; [ | reflexivity ]. cbn [bind].
  destruct (int_round c1) as [packs | e]; [ | reflexivity ]. cbn [bind].
  unfold _calculate_weekly_increased_calories.
  cbn [population_total female_ratio _append_result results].
  destruct (py_mul pt fr) as [a2 | e]; [ | reflexivity ]. cbn [bind].
  destruct (py_mul a2 (PyInt 2)) as [b2 | e]; [ | reflexivity ]. cbn [bind].
  destruct (py_mul b2 (PyFloat 0.033782)) as [lact | e]; [ | reflexivity ].
  cbn [bind].
  destruct (py_mul b2 (PyFloat 0.01281)) as [preg | e]; [ | reflexivity ].
  cbn [bind].
  destruct (py_add lact preg) as [sum | e]; [ | reflexivity ]. cbn [bind].
  destruct (int_round sum) as [rice | e]; [ | reflexivity ]. cbn [bind].
  unfold _append_result. cbn [results population_total female_ratio].
  rewrite <- !app_assoc. reflexivity.
Qed.

(** A population that is a float NaN makes [process] raise ValueError,
    and one that is a float infinity makes it raise OverflowError,
    whatever the ratio is, as long as it is not [None]: the first
    indicator already fails in [int(round(...))]. *)
Lemma process_not_finite (tr : string -> string) (old : list indicator)
  (x : float) (fr : pyval) :
  fr <> PyNone ->
  (Prim2SF x = S754_nan ->
   process tr (Build old (PyFloat x) fr) = Raise ValueError)
  /\ (forall s, Prim2SF x = S754_infinity s ->
                process tr (Build old (PyFloat x) fr) = Raise OverflowError).
Proof.
  intros Hfr.
  assert (Hguard : is_None (PyFloat x) || is_None fr = false).
  { destruct fr; [ congruence | reflexivity | reflexivity ]. }
  split; [ intros Hx | intros s Hx ];
    unfold process, AbstractPostprocessor_process; cbn [bind];
    cbn [population_total female_ratio]; rewrite Hguard; cbn [bind];
    unfold _calculate_total, int_round, py_round, round_float;
    cbn [population_total bind]; rewrite Hx; cbn [bind py_int];
    unfold trunc_float; rewrite Hx; reflexivity.
Qed.

Lemma process_not_finite_witness :
  process (fun s => s) (Build [] (PyFloat nan) (PyFloat 0.5))
    = Raise ValueError
  /\ process (fun s => s) (Build [] (PyFloat infinity) (PyInt 1))
     = Raise OverflowError.
Proof.
  split.
  - apply (process_not_finite (fun s => s) [] nan (PyFloat 0.5));
      [ discriminate | reflexivity ].
  - apply (process_not_finite (fun s => s) [] infinity (PyInt 1)) with false;
      [ discriminate | reflexivity ].
Defined.

End GenderEdges.

(** ** The gender postprocessor on integers *)

Module GenderExact.
Import Py PyFacts Gender.

Lemma digits2_pos_lower (p : positive) :
  2 ^ (Zpos (digits2_pos p) - 1) <= Zpos p.
Proof.
  induction p as [p IH | p IH |]; cbn [digits2_pos].
  - rewrite Pos2Z.inj_succ.
    replace (Z.succ (Zpos (digits2_pos p)) - 1) with (Z.succ (Zpos (digits2_pos p) - 1)) by lia.
    rewrite Z.pow_succ_r by lia. lia.
  - rewrite Pos2Z.inj_succ.
    replace (Z.succ (Zpos (digits2_pos p)) - 1) with (Z.succ (Zpos (digits2_pos p) - 1)) by lia.
    rewrite Z.pow_succ_r by lia. lia.
  - reflexivity.
Qed.

Lemma digits2_pos_bound (p : positive) (k : Z) :
  Zpos p < 2 ^ k -> 0 <= k -> Zpos (digits2_pos p) <= k.
Proof.
  intros Hp Hk. pose proof (digits2_pos_lower p) as Hlow.
  destruct (Z.le_gt_cases (Zpos (digits2_pos p)) k) as [Hle | Hgt]; [ exact Hle | ].
  assert (2 ^ k <= 2 ^ (Zpos (digits2_pos p) - 1)) by (apply Z.pow_le_mono_r; lia).
  lia.
Qed.

Lemma iter_xO_digits (p d : positive) :
  digits2_pos (Pos.iter xO p d) = (digits2_pos p + d)%positive.
Proof.
  induction d as [| d IH] using Pos.peano_ind.
  - cbn. lia.
  - rewrite Pos.iter_succ. cbn [digits2_pos]. rewrite IH. lia.
Qed.

Lemma iter_xO_value (p d : positive) :
  Zpos (Pos.iter xO p d) = Zpos p * 2 ^ Zpos d.
Proof.
  induction d as [| d IH] using Pos.peano_ind.
  - cbn. lia.
  - rewrite Pos.iter_succ. rewrite Pos2Z.inj_xO, IH, Pos2Z.inj_succ, Z.pow_succ_r by lia. lia.
Qed.

Lemma binary_round_small (s : bool) (p : positive) :
  Zpos p < 2 ^ 53 ->
  binary_round prec emax s p 0 = small_float s p.
Proof.
  intros Hp. pose proof (digits2_pos_bound p 53 Hp ltac:(lia)) as Hd.
  unfold binary_round, small_float, shl_align.
  assert (Hfexp : fexp prec emax (Zpos (digits2_pos p) + 0) = Zpos (digits2_pos p) - 53).
  { unfold fexp, emin, prec, emax. lia. }
  rewrite Hfexp, Z.sub_0_r.
  destruct (Zpos (digits2_pos p) - 53) as [| d | d] eqn:Ed; [ | lia | ].
  - unfold binary_round_aux, shr_fexp. cbn [Zdigits2 shr_record_of_loc].
    assert (Hf : fexp prec emax (Zpos (digits2_pos p) + 0) - 0 = 0) by lia.
    rewrite Hf. cbn [shr shr_m loc_of_shr_record round_nearest_even Zdigits2 shr_record_of_loc].
    rewrite Hf. cbn. reflexivity.
  - unfold binary_round_aux, shr_fexp. cbn [Zdigits2 shr_record_of_loc].
    assert (Hf : fexp prec emax (Zpos (digits2_pos (Pos.iter xO p d)) + Zneg d) - Zneg d = 0).
    { rewrite iter_xO_digits. unfold fexp, emin, prec, emax. lia. }
    rewrite Hf. cbn [shr shr_m loc_of_shr_record round_nearest_even Zdigits2 shr_record_of_loc].
    rewrite Hf. cbn [shr shr_m].
    assert (Hle : (Zneg d <=? emax - prec) = true) by (apply Z.leb_le; unfold emax, prec; lia).
    rewrite Hle. reflexivity.
Qed.

Lemma small_float_valid (s : bool) (p : positive) :
  Zpos p < 2 ^ 53 -> valid_binary (small_float s p) = true.
Proof.
  intros Hp. pose proof (digits2_pos_bound p 53 Hp ltac:(lia)) as Hd.
  unfold small_float.
  destruct (Zpos (digits2_pos p) - 53) as [| d | d] eqn:Ed; [ | lia | ];
    unfold SpecFloat.valid_binary, bounded, canonical_mantissa; apply andb_true_iff; split;
    try (apply Z.leb_le; unfold emax, prec; lia); apply Z.eqb_eq;
    rewrite ?iter_xO_digits; unfold fexp, emin, prec, emax; lia.
Qed.

Lemma small_float_round (s : bool) (p : positive) :
  Zpos p < 2 ^ 53 ->
  match small_float s p with
  | S754_finite s' m e => s' = s /\ round_half_away m e = Zpos p /\
      match e with Z0 => Zpos m | Zpos q => Zpos m * 2 ^ Zpos q | Zneg q => Zpos m / 2 ^ Zpos q end = Zpos p
  | _ => False
  end.
Proof.
  intros Hp. unfold small_float.
  destruct (Zpos (digits2_pos p) - 53) as [| d | d] eqn:Ed; [ auto | auto | ].
  split; [ reflexivity | ]. unfold round_half_away. rewrite iter_xO_value.
  assert (0 < 2 ^ Zpos d) by (apply Z.pow_pos_nonneg; lia).
  split.
  - replace (2 * (Zpos p * 2 ^ Zpos d) + 2 ^ Zpos d) with (2 ^ Zpos d + Zpos p * (2 * 2 ^ Zpos d)) by lia.
    rewrite Z.div_add by lia. rewrite Z.div_small by lia. lia.
  - apply Z.div_mul. lia.
Qed.

(** [int(round(n))] gives an integer below 2^53 in absolute value back. *)
Lemma int_round_exact (n : Z) :
  - 2 ^ 53 < n < 2 ^ 53 -> int_round (PyInt n) = Ok n.
Proof.
  intros Hn. unfold int_round.
  destruct n as [| p | p].
  - reflexivity.
  - assert (Hp : Zpos p < 2 ^ 53) by lia.
    unfold py_round, float_of_int. cbn [binary_normalize].
    rewrite (binary_round_small false p Hp).
    pose proof (small_float_valid false p Hp) as Hvalid.
    pose proof (small_float_round false p Hp) as Hround.
    destruct (small_float false p) as [| | | s m e] eqn:Esf; try contradiction.
    destruct Hround as (-> & Hr & Ht).
    cbn [bind]. unfold round_float.
    rewrite (Prim2SF_SF2Prim _ Hvalid). rewrite Hr. cbn [cond_Zopp binary_normalize].
    rewrite (binary_round_small false p Hp), Esf.
    cbn [py_int]. unfold trunc_float. rewrite (Prim2SF_SF2Prim _ Hvalid).
    rewrite Ht. reflexivity.
  - assert (Hp : Zpos p < 2 ^ 53) by lia.
    unfold py_round, float_of_int. cbn [binary_normalize].
    rewrite (binary_round_small true p Hp).
    pose proof (small_float_valid true p Hp) as Hvalid.
    pose proof (small_float_round true p Hp) as Hround.
    destruct (small_float true p) as [| | | s m e] eqn:Esf; try contradiction.
    destruct Hround as (-> & Hr & Ht).
    cbn [bind]. unfold round_float.
    rewrite (Prim2SF_SF2Prim _ Hvalid). rewrite Hr. change (cond_Zopp true (Zpos p)) with (Zneg p).
    cbn [binary_normalize].
    rewrite (binary_round_small true p Hp), Esf.
    cbn [py_int]. unfold trunc_float. rewrite (Prim2SF_SF2Prim _ Hvalid).
    rewrite Ht. reflexivity.
Qed.

(** For an integer population below 2^53 in absolute value the Total
    indicator is the population itself, whatever the ratio; and when the
    ratio is an integer too and the product stays below 2^53, the Female
    population indicator is the product: the passage through a float in
    [int(round(...))] loses nothing there. *)
Lemma integer_population_exact (tr : string -> string)
  (old : list indicator) (n : Z) (fr : pyval) :
  - 2 ^ 53 < n < 2 ^ 53 ->
  _calculate_total tr (Build old (PyInt n) fr) =
    Ok (Build (old ++ [Indicator (tr "Total") n None]) (PyInt n) fr)
  /\ (forall k,
         fr = PyInt k ->
         - 2 ^ 53 < n * k < 2 ^ 53 ->
         _calculate_females tr (Build old (PyInt n) fr) =
           Ok (Build (old ++ [Indicator (tr "Female population") (n * k) None])
                     (PyInt n) fr)).
Proof.
  intros Hn. split.
  - unfold _calculate_total. cbn [population_total].
    rewrite (int_round_exact n Hn). reflexivity.
  - intros k -> Hk. unfold _calculate_females.
    cbn [population_total female_ratio py_mul coerce bind].
    rewrite (int_round_exact (n * k) Hk). reflexivity.
Qed.

Lemma integer_population_exact_witness :
  _calculate_total (fun s => s) (Build [] (PyInt 250000000) (PyFloat 0.5)) =
    Ok (Build [Indicator "Total" 250000000 None]
              (PyInt 250000000) (PyFloat 0.5))
  /\ _calculate_females (fun s => s) (Build [] (PyInt 250000000) (PyInt 1)) =
       Ok (Build [Indicator "Female population" 250000000 None]
                 (PyInt 250000000) (PyInt 1)).
Proof.
  assert (Hsmall : - 2 ^ 53 < 250000000 < 2 ^ 53) by lia.
  destruct (integer_population_exact (fun s => s) [] 250000000 (PyFloat 0.5)
              Hsmall) as (Htotal & _).
  destruct (integer_population_exact (fun s => s) [] 250000000 (PyInt 1)
              Hsmall) as (_ & Hfemales).
  split; [ exact Htotal | ].
  apply (Hfemales 1); [ reflexivity | lia ].
Defined.

(** Beyond 2^53 the passage through a float shows: 2^53 + 1 comes back
    as 2^53. *)
Lemma int_round_beyond :
  int_round (PyInt (2 ^ 53 + 1)) = Ok (2 ^ 53).
Proof. reflexivity. Qed.

End GenderExact.

(** ** The vector helpers: skipped geometries, whole results of a split,
    and the column of the mark *)

Module VectorMore.
Import Py PyFacts VectorTools VectorFacts.

Lemma for_each_app {A S} (body : S -> A -> result S) (xs ys : list A) (st : S) :
  for_each body (xs ++ ys) st =
    (st' <- for_each body xs st ;; for_each body ys st').
Proof.
  revert st. induction xs as [| x xs IH]; intros st; [ reflexivity | ].
  cbn [app for_each]. destruct (body st x) as [st1 | e]; [ | reflexivity ].
  cbn [bind]. apply IH.
Qed.

(** *** union_geometry *)

Section UnionGeometry.
Context {G : Type} `{GeometryEngine G}.

Lemma union_step_fails (acc : G) (f : QgsFeature G) :
  combination_fails acc (geometry f) = true ->
  union_step (Some acc) f = Ok (Some acc).
Proof.
  unfold combination_fails, union_step.
  destruct (combine acc (geometry f)) as [tmp |]; [ | reflexivity ].
  cbn [call_isGeosValid bind]. destruct (isGeosValid tmp); [ discriminate | ].
  reflexivity.
Qed.

Lemma union_step_merged (acc : G) (f : QgsFeature G) :
  union_step (Some acc) f = Ok (Some (merged acc (geometry f))).
Proof.
  unfold union_step, merged.
  destruct (combine acc (geometry f)) as [tmp |]; [ | reflexivity ].
  cbn [call_isGeosValid bind]. destruct (isGeosValid tmp); reflexivity.
Qed.

(** [union_geometry] never raises, whatever the combinations give: it
    returns [None] when no feature is selected, and otherwise the geometry
    of the first selected feature with the later ones combined into it
    from left to right, where a combination that gives no geometry (the
    AttributeError of the source) or an invalid one leaves the accumulator
    as it was. *)
Lemma union_geometry_fold (vector : QgsVectorLayer G)
  (request : QgsFeatureRequest G) :
  union_geometry vector request =
    Ok (match getFeatures vector request with
        | [] => None
        | first :: others =>
            Some (fold_left (fun acc f => merged acc (geometry f)) others
                            (geometry first))
        end).
Proof.
  unfold union_geometry.
  destruct (getFeatures vector request) as [| first others]; [ reflexivity | ].
  cbn [for_each union_step bind].
  generalize (geometry first). induction others as [| f fs IH]; intros acc.
  - reflexivity.
  - cbn [for_each fold_left]. rewrite union_step_merged. cbn [bind].
    apply IH.
Qed.

(** A feature whose geometry cannot be combined into what the features
    before it gave is skipped, and the features after it are still
    merged: the result is that of the same features without it. *)
Lemma union_geometry_skips (vector : QgsVectorLayer G)
  (request : QgsFeatureRequest G) (before after : list (QgsFeature G))
  (bad : QgsFeature G) (acc : G) :
  getFeatures vector request = before ++ bad :: after ->
  dissolve before = Ok (Some acc) ->
  combination_fails acc (geometry bad) = true ->
  union_geometry vector request = dissolve (before ++ after).
Proof.
  intros Hselected Hbefore Hbad. unfold union_geometry, dissolve in *.
  rewrite Hselected, !for_each_app, Hbefore. cbn [bind for_each].
  rewrite (union_step_fails acc bad Hbad). reflexivity.
Qed.

(** When no later geometry can be combined into the first one, the
    result is the first geometry as it is, however many features follow. *)
Lemma union_geometry_poisoned (vector : QgsVectorLayer G)
  (request : QgsFeatureRequest G) (first : QgsFeature G)
  (others : list (QgsFeature G)) :
  getFeatures vector request = first :: others ->
  Forall (fun f => combination_fails (geometry first) (geometry f) = true)
         others ->
  union_geometry vector request = Ok (Some (geometry first)).
Proof.
  intros Hselected Hall. unfold union_geometry. rewrite Hselected.
  clear Hselected. cbn [for_each union_step bind].
  induction Hall as [| f fs Hf _ IH]; [ reflexivity | ].
  cbn [for_each]. rewrite (union_step_fails _ f Hf). cbn [bind]. exact IH.
Qed.

End UnionGeometry.

(** *** _update_attr_list *)

(** Putting a mark changes one column only. With [add_attribute] the
    value is found in a new last column, without it in column [index];
    every other column of the source list holds what it held. *)
Lemma update_attr_list_lookup (attributes updated : list QVariant)
  (index : Z) (value : QVariant) (add_attribute : bool) :
  0 <= index ->
  _update_attr_list attributes index value add_attribute = Ok updated ->
  updated !! (if add_attribute then length attributes else Z.to_nat index)
    = Some value
  /\ forall column : nat,
       column <> (if add_attribute then length attributes else Z.to_nat index) ->
       (column < length attributes)%nat ->
       updated !! column = attributes !! column.
Proof.
  intros Hindex. unfold _update_attr_list.
  destruct add_attribute.
  - intros [= <-]. split.
    + rewrite lookup_app_r by lia. rewrite Nat.sub_diag. reflexivity.
    + intros column _ Hcolumn. apply lookup_app_l. exact Hcolumn.
  - unfold list_setitem.
    destruct (index <? 0) eqn:Eneg; [ lia | ].
    destruct ((0 <=? index) && (index <? Z.of_nat (length attributes)))
      eqn:Erange; [ | discriminate ].
    intros [= <-]. split.
    + apply list_lookup_insert_eq. lia.
    + intros column Hcolumn _. apply list_lookup_insert_ne. congruence.
Qed.

Lemma update_attr_list_lookup_witness :
  [QInt 4; QString "a"; QInt 0] !! 2%nat = Some (QInt 0)
  /\ <[1%nat := QInt 7]> [QInt 4; QString "a"] !! 1%nat = Some (QInt 7).
Proof.
  split.
  - apply (update_attr_list_lookup [QInt 4; QString "a"]
             [QInt 4; QString "a"; QInt 0] 5 (QInt 0) true);
      [ lia | reflexivity ].
  - apply (update_attr_list_lookup [QInt 4; QString "a"]
             (<[1%nat := QInt 7]> [QInt 4; QString "a"]) 1 (QInt 7) false);
      [ lia | reflexivity ].
Defined.

(** *** split_by_polygon *)

Section SplitByPolygon.
Context {G : Type} `{GeometryEngine G} `{FieldIndex}.

(** The layer the loop starts from, for a line or polygon layer. *)
Lemma start_layer_eq (vector : QgsVectorLayer G) (uri : string)
  (mark_value : mark_directive) :
  result_uri vector = Ok uri ->
  fst (copy_fields vector (new_memory_layer uri "intersected") mark_value) =
    Layer "intersected" (geometryType vector) (crs vector)
          (result_fields vector mark_value) [].
Proof.
  unfold result_uri. intros Huri.
  assert (Hnew : new_memory_layer (G := G) uri "intersected" =
                 Layer "intersected" (geometryType vector) (crs vector) [] []).
  { destruct (Z.eqb_spec (geometryType vector) 0); [ discriminate | ].
    destruct (Z.eqb_spec (geometryType vector) 1) as [-> | _];
      [ injection Huri as <-; reflexivity | ].
    destruct (Z.eqb_spec (geometryType vector) 2) as [-> | _];
      [ injection Huri as <-; reflexivity | discriminate ]. }
  rewrite Hnew. unfold copy_fields, result_fields, addAttributes.
  destruct mark_value as [[target_field target_value] |]; cbn.
  - destruct (indexFromName (fields vector) target_field =? -1); cbn;
      rewrite ?app_nil_r; reflexivity.
  - rewrite app_nil_r. reflexivity.
Qed.

Lemma update_put_mark (attributes : list QVariant) (index : Z)
  (value : QVariant) (new_field_added : bool) :
  new_field_added = true
  \/ 0 <= index < Z.of_nat (length attributes) ->
  _update_attr_list attributes index value new_field_added =
    Ok (put_mark new_field_added index value attributes).
Proof.
  unfold _update_attr_list, put_mark, list_setitem.
  destruct new_field_added; [ reflexivity | ].
  intros [[=] | Hrange].
  destruct (index <? 0) eqn:Eneg; [ lia | ].
  destruct ((0 <=? index) && (index <? Z.of_nat (length attributes)))
    eqn:Erange; [ reflexivity | lia ].
Qed.

(** One turn of the loop under a mark directive whose column is usable. *)
Lemma split_feature_marked (polygon : G) (target_field : string)
  (target_value : QVariant) (new_field_added : bool) (index : Z)
  (st : split_state G) (f : QgsFeature G) :
  new_field_added = true
  \/ 0 <= index < Z.of_nat (length (attributes f)) ->
  exists bound,
    split_feature polygon (Some (target_field, target_value)) new_field_added
      target_value (Some index) st f
    = Ok (SplitState
            (addFeatures (st_result_layer st)
               (marked_features polygon new_field_added index target_value f))
            bound).
Proof.
  intros Husable. unfold split_feature, marked_features, parts_of_type.
  destruct (intersects polygon (geometry f)).
  - destruct (parts_loop
                (inside_part (Some (target_field, target_value))
                   new_field_added target_value (Some index) (attributes f)
                   (geom_type (geometry f)))
                (put_mark new_field_added index target_value (attributes f))
                (geom_type (geometry f))
                (asGeometryCollection (intersection (geometry f) polygon)))
      with (st := st) as (bound1 & ->).
    { intros st0 g. unfold inside_part.
      destruct (geom_type g =? _); [ | reflexivity ].
      apply (marked_emit target_value target_value target_field).
      apply update_put_mark, Husable. }
    cbn [bind].
    match goal with
    | |- context [for_each ?body ?parts ?st1] =>
        destruct (parts_loop body
                    (put_mark new_field_added index (QInt 0) (attributes f))
                    (geom_type (geometry f)) parts) with (st := st1)
          as (bound2 & ->)
    end.
    { intros st0 g. unfold outside_part.
      destruct (geom_type g =? _); [ | reflexivity ].
      unfold assign_new_attributes. cbn [read_local bind].
      rewrite update_put_mark by exact Husable. reflexivity. }
    exists bound2. cbn [st_result_layer]. rewrite addFeatures_app. reflexivity.
  - eexists.
    apply (marked_emit target_value (QInt 0) target_field).
    apply update_put_mark, Husable.
Qed.

Lemma split_loop_marked (polygon : G) (target_field : string)
  (target_value : QVariant) (new_field_added : bool) (index : Z)
  (selected : list (QgsFeature G)) :
  (forall f, In f selected ->
             new_field_added = true
             \/ 0 <= index < Z.of_nat (length (attributes f))) ->
  forall st, exists bound,
    for_each (split_feature polygon (Some (target_field, target_value))
                new_field_added target_value (Some index)) selected st
    = Ok (SplitState
            (addFeatures (st_result_layer st)
               (flat_map (marked_features polygon new_field_added index
                                          target_value) selected))
            bound).
Proof.
  induction selected as [| f fs IH]; intros Husable st.
  - exists (st_new_attributes st). cbn. rewrite addFeatures_nil.
    destruct st; reflexivity.
  - cbn [for_each flat_map].
    destruct (split_feature_marked polygon target_field target_value
                new_field_added index st f) as (bound1 & ->).
    { apply Husable. left. reflexivity. }
    cbn [bind].
    match goal with
    | |- context [for_each _ fs ?st1] =>
        destruct (IH (fun g Hg => Husable g (or_intror Hg)) st1)
          as (bound2 & ->)
    end.
    exists bound2. cbn [st_result_layer]. rewrite addFeatures_app. reflexivity.
Qed.

(** Under a mark directive whose column is found, [split_by_polygon] on a
    line or polygon layer returns the layer named "intersected" with the
    type and reference system of the source, the result fields, and, for
    the selected features in their order, the marked parts of each: it
    does so whenever the mark field is new, and, when the field exists,
    whenever its column lies inside the attribute list of every selected
    feature. *)
Lemma split_by_polygon_marked (vector : QgsVectorLayer G) (polygon : G)
  (request : QgsFeatureRequest G) (target_field : string)
  (target_value : QVariant) :
  geometryType vector = 1 \/ geometryType vector = 2 ->
  fieldNameIndex (result_fields vector (Some (target_field, target_value)))
                 target_field <> -1 ->
  (field_added vector (Some (target_field, target_value)) = true
   \/ forall f, In f (getFeatures vector request) ->
                0 <= fieldNameIndex
                       (result_fields vector (Some (target_field, target_value)))
                       target_field
                  < Z.of_nat (length (attributes f))) ->
  split_by_polygon vector polygon request (Some (target_field, target_value)) =
    Ok (Layer "intersected" (geometryType vector) (crs vector)
          (result_fields vector (Some (target_field, target_value)))
          (flat_map
             (marked_features polygon
                (field_added vector (Some (target_field, target_value)))
                (fieldNameIndex
                   (result_fields vector (Some (target_field, target_value)))
                   target_field)
                target_value)
             (getFeatures vector request))).
Proof.
  intros Htype Hfound Husable. rewrite split_by_polygon_stages.
  destruct (result_uri_cases vector)
    as [(Hpoint & _) | [(_ & uri & Huri) | (Hother & _)]]; [ lia | | lia ].
  rewrite Huri. cbn [bind]. rewrite (start_layer_eq vector uri _ Huri).
  unfold resolve_target. cbn [fields].
  destruct (Z.eqb_spec
              (fieldNameIndex
                 (result_fields vector (Some (target_field, target_value)))
                 target_field) (-1)) as [E | _]; [ contradiction | ].
  cbn [bind fst snd].
  match goal with
  | |- context [for_each _ ?fs ?st0] =>
      destruct (split_loop_marked polygon target_field target_value
                  (field_added vector (Some (target_field, target_value)))
                  (fieldNameIndex
                     (result_fields vector (Some (target_field, target_value)))
                     target_field)
                  fs) with (st := st0) as (bound & ->)
  end.
  { intros f Hf. destruct Husable as [Hadded | Hrange]; [ left | right ]; auto. }
  reflexivity.
Qed.

(** With a filter that selects no feature, [split_by_polygon] on a line
    or polygon layer returns the empty layer with the result fields, with
    or without a mark directive, provided the column of the mark field is
    found. *)
Lemma split_by_polygon_no_feature (vector : QgsVectorLayer G) (polygon : G)
  (request : QgsFeatureRequest G) (mark_value : mark_directive) :
  geometryType vector = 1 \/ geometryType vector = 2 ->
  (forall target_field target_value,
      mark_value = Some (target_field, target_value) ->
      fieldNameIndex (result_fields vector mark_value) target_field <> -1) ->
  (forall f, In f (features vector) -> request f = false) ->
  split_by_polygon vector polygon request mark_value =
    Ok (Layer "intersected" (geometryType vector) (crs vector)
          (result_fields vector mark_value) []).
Proof.
  intros Htype Hfound Hnone. rewrite split_by_polygon_stages.
  destruct (result_uri_cases vector)
    as [(Hpoint & _) | [(_ & uri & Huri) | (Hother & _)]]; [ lia | | lia ].
  rewrite Huri. cbn [bind]. rewrite (start_layer_eq vector uri _ Huri).
  rewrite (getFeatures_none vector request Hnone).
  unfold resolve_target. cbn [fields].
  destruct mark_value as [[target_field target_value] |]; [ | reflexivity ].
  destruct (Z.eqb_spec
              (fieldNameIndex
                 (result_fields vector (Some (target_field, target_value)))
                 target_field) (-1)) as [E | _]; [ | reflexivity ].
  exfalso. exact (Hfound target_field target_value eq_refl E).
Qed.

(** A mark field that exists, in a column beyond the attributes of the
    first selected feature: when that feature does not intersect the
    polygon, the call ends in an IndexError. *)
Lemma split_short_attributes_raises (vector : QgsVectorLayer G) (polygon : G)
  (request : QgsFeatureRequest G) (target_field : string)
  (target_value : QVariant) (f : QgsFeature G) (fs : list (QgsFeature G)) :
  geometryType vector = 1 \/ geometryType vector = 2 ->
  field_added vector (Some (target_field, target_value)) = false ->
  getFeatures vector request = f :: fs ->
  intersects polygon (geometry f) = false ->
  Z.of_nat (length (attributes f))
    <= fieldNameIndex
         (result_fields vector (Some (target_field, target_value)))
         target_field ->
  split_by_polygon vector polygon request (Some (target_field, target_value)) =
    Raise IndexError.
Proof.
  intros Htype Hadded Hselected Hapart Hshort. rewrite split_by_polygon_stages.
  destruct (result_uri_cases vector)
    as [(Hpoint & _) | [(_ & uri & Huri) | (Hother & _)]]; [ lia | | lia ].
  rewrite Huri. cbn [bind]. rewrite (start_layer_eq vector uri _ Huri).
  unfold resolve_target. cbn [fields].
  destruct (Z.eqb_spec
              (fieldNameIndex
                 (result_fields vector (Some (target_field, target_value)))
                 target_field) (-1)) as [E | _]; [ lia | ].
  cbn [bind fst snd]. rewrite Hselected, Hadded. cbn [for_each].
  unfold split_feature at 1. rewrite Hapart.
  unfold assign_new_attributes, _update_attr_list, list_setitem.
  cbn [read_local bind].
  destruct (_ <? 0) eqn:Eneg; [ lia | ].
  destruct ((0 <=? _) && (_ <? _)) eqn:Erange; [ lia | ].
  reflexivity.
Qed.

(** **** Without a mark directive *)

Lemma inside_unmarked (new_field_added : bool) (target_value : QVariant)
  (attributes : list QVariant) (geometry_type : Z) (parts : list G)
  (st : split_state G) :
  st_new_attributes st = None ->
  for_each (inside_part None new_field_added target_value None attributes
                        geometry_type) parts st =
    match List.filter (fun part => geom_type part =? geometry_type) parts with
    | [] => Ok st
    | _ => Raise (UnboundLocalError "new_attributes")
    end.
Proof.
  intros Hunbound. induction parts as [| g parts IH]; [ reflexivity | ].
  cbn [for_each List.filter]. unfold inside_part at 1.
  destruct (geom_type g =? geometry_type).
  - cbn [bind]. unfold emit. rewrite Hunbound. reflexivity.
  - cbn [bind]. exact IH.
Qed.

Lemma outside_unmarked (new_field_added : bool) (attributes : list QVariant)
  (geometry_type : Z) (parts : list G) (st : split_state G) :
  for_each (outside_part new_field_added None attributes geometry_type)
           parts st =
    match List.filter (fun part => geom_type part =? geometry_type) parts with
    | [] => Ok st
    | _ => Raise (UnboundLocalError "target_field_index")
    end.
Proof.
  induction parts as [| g parts IH]; [ reflexivity | ].
  cbn [for_each List.filter]. unfold outside_part at 1.
  destruct (geom_type g =? geometry_type).
  - reflexivity.
  - cbn [bind]. exact IH.
Qed.

(** One turn of the loop without a mark directive, while [new_attributes]
    is unbound: nothing happens when the feature has nothing to add, and
    an UnboundLocalError is raised otherwise. *)
Lemma split_feature_unmarked (polygon : G) (new_field_added : bool)
  (target_value : QVariant) (st : split_state G) (f : QgsFeature G) :
  st_new_attributes st = None ->
  if emits_nothing polygon f
  then split_feature polygon None new_field_added target_value None st f
       = Ok st
  else exists var,
      split_feature polygon None new_field_added target_value None st f
      = Raise (UnboundLocalError var).
Proof.
  intros Hunbound. unfold emits_nothing, split_feature, parts_of_type.
  destruct (intersects polygon (geometry f)); cbn [andb].
  - rewrite (inside_unmarked _ _ _ _ _ st Hunbound).
    destruct (List.filter _ (asGeometryCollection
                               (intersection (geometry f) polygon)));
      cbn [bind andb]; [ | eauto ].
    rewrite outside_unmarked.
    destruct (List.filter _ (asGeometryCollection
                               (symDifference (geometry f) polygon)));
      eauto.
  - cbn [bind]. unfold emit. rewrite Hunbound. cbn. eauto.
Qed.

Lemma split_loop_unmarked (polygon : G) (new_field_added : bool)
  (target_value : QVariant) (selected : list (QgsFeature G))
  (st st' : split_state G) :
  st_new_attributes st = None ->
  for_each (split_feature polygon None new_field_added target_value None)
           selected st = Ok st'
  <-> forallb (emits_nothing polygon) selected = true /\ st' = st.
Proof.
  intros Hunbound. induction selected as [| f fs IH].
  - cbn. split; [ intros [= <-]; auto | intros (_ & ->); reflexivity ].
  - cbn [for_each forallb].
    pose proof (split_feature_unmarked polygon new_field_added target_value
                  st f Hunbound) as Hturn.
    destruct (emits_nothing polygon f).
    + rewrite Hturn. cbn [bind andb]. exact IH.
    + destruct Hturn as (var & ->). cbn [bind andb].
      split; [ discriminate | intros ([=] & _) ].
Qed.

(** Without a mark directive [split_by_polygon] returns a layer exactly
    when the layer is a line or polygon layer and no selected feature has
    anything to add (each intersects the polygon, and neither its
    intersection nor its symmetric difference with the polygon has a part
    of its own type); the layer it returns is empty. In every other case
    with a line or polygon layer it raises. *)
Lemma split_without_mark_returns (vector : QgsVectorLayer G) (polygon : G)
  (request : QgsFeatureRequest G) (out : QgsVectorLayer G) :
  split_by_polygon vector polygon request None = Ok out
  <-> (geometryType vector = 1 \/ geometryType vector = 2)
      /\ forallb (emits_nothing polygon) (getFeatures vector request) = true
      /\ out = Layer "intersected" (geometryType vector) (crs vector)
                     (fields vector) [].
Proof.
  rewrite split_by_polygon_stages.
  destruct (result_uri_cases vector)
    as [(Hpoint & Huri) | [(Htype & uri & Huri) | (Hother & msg & Huri)]];
    rewrite Huri; cbn [bind].
  - split; [ discriminate | intros ([E | E] & _); lia ].
  - rewrite (start_layer_eq vector uri None Huri).
    unfold result_fields. rewrite app_nil_r. cbn [resolve_target bind fst snd].
    split.
    + intros Hrun. apply bind_Ok in Hrun as (st & Hloop & [= <-]).
      apply split_loop_unmarked in Hloop as (Hall & ->); [ | reflexivity ].
      auto.
    + intros (_ & Hall & ->).
      assert (Hloop : for_each
                        (split_feature polygon None
                           (field_added vector None) QNull None)
                        (getFeatures vector request)
                        (SplitState
                           (Layer "intersected" (geometryType vector)
                              (crs vector) (fields vector) []) None)
                      = Ok (SplitState
                              (Layer "intersected" (geometryType vector)
                                 (crs vector) (fields vector) []) None)).
      { apply split_loop_unmarked; [ reflexivity | auto ]. }
      rewrite Hloop. reflexivity.
  - split; [ discriminate | intros ([E | E] & _); lia ].
Qed.

(** **** A provider whose look-ups agree *)

(** When [fieldNameIndex] finds a field that was just appended and every
    field that [indexFromName] finds, the column of the mark field is
    always found: [split_by_polygon] raises the data-kind error exactly
    when the layer is neither a line nor a polygon layer. *)
Lemma split_field_always_found (vector : QgsVectorLayer G) (polygon : G)
  (request : QgsFeatureRequest G) (mark_value : mark_directive) :
  (forall fs name,
      fieldNameIndex (fs ++ [Field name QVariant_Int]) name <> -1) ->
  (forall fs name,
      indexFromName fs name <> -1 -> fieldNameIndex fs name <> -1) ->
  data_kind_error (split_by_polygon vector polygon request mark_value)
  <-> geometryType vector <> 1 /\ geometryType vector <> 2.
Proof.
  intros Hnew Hold. split.
  - intros (msg & Hrun).
    apply split_by_polygon_Raise in Hrun as [Huri | [(_ & Hmark) | Hslip]].
    + destruct (result_uri_cases vector)
        as [(Hpoint & _) | [(_ & uri & Huri') | (Hother & _)]];
        [ lia | congruence | lia ].
    + exfalso. destruct Hmark as (tf & tv & -> & Hindex & _).
      revert Hindex. unfold result_fields.
      destruct (Z.eqb_spec (indexFromName (fields vector) tf) (-1))
        as [E | E]; [ apply Hnew | ].
      rewrite app_nil_r. apply Hold, E.
    + destruct Hslip as [Hslip | (var & Hslip)]; discriminate.
  - intros (Hline & Hpolygon). rewrite split_by_polygon_stages.
    destruct (result_uri_cases vector)
      as [(_ & Huri) | [([E | E] & _) | (_ & msg & Huri)]];
      [ | lia | lia | ]; rewrite Huri; eexists; reflexivity.
Qed.

End SplitByPolygon.

End VectorMore.

(** ** Field look-up by exact name *)

Module HostFacts.
Import Py PyFacts VectorTools VectorFacts Cells.

Lemma index_of_range (name : string) (fs : list QgsField) (i : Z) :
  index_of name fs i = -1
  \/ i <= index_of name fs i < i + Z.of_nat (length fs).
Proof.
  revert i. induction fs as [| f fs IH]; intros i; [ left; reflexivity | ].
  cbn [index_of length]. destruct (String.eqb (field_name f) name).
  - right. lia.
  - destruct (IH (i + 1)) as [E | E]; [ left; exact E | right; lia ].
Qed.

Lemma index_of_new (name : string) (fs : list QgsField) (i : Z)
  (type : QVariantType) :
  0 <= i ->
  index_of name fs i = -1 ->
  index_of name (fs ++ [Field name type]) i = i + Z.of_nat (length fs).
Proof.
  revert i. induction fs as [| f fs IH]; intros i Hi.
  - intros _. cbn. rewrite String.eqb_refl. lia.
  - cbn [index_of app length]. destruct (String.eqb (field_name f) name).
    + lia.
    + intros E. rewrite (IH (i + 1) ltac:(lia) E). lia.
Qed.

Lemma index_of_found (name : string) (fs more : list QgsField) (i : Z) :
  0 <= i ->
  index_of name fs i <> -1 ->
  index_of name (fs ++ more) i = index_of name fs i.
Proof.
  revert i. induction fs as [| f fs IH]; intros i Hi; [ cbn; congruence | ].
  cbn [index_of app]. destruct (String.eqb (field_name f) name);
    [ reflexivity | ].
  apply IH. lia.
Qed.

(** The look-ups by exact name agree in the sense of
    [split_field_always_found]. *)
Lemma exact_names_agree :
  (forall fs name,
      fieldNameIndex (fs ++ [Field name QVariant_Int]) name <> -1)
  /\ (forall fs name,
         indexFromName fs name <> -1 -> fieldNameIndex fs name <> -1).
Proof.
  split; [ | intros fs name E; exact E ].
  intros fs name. cbn.
  destruct (Z.eq_dec (index_of name fs 0) (-1)) as [E | E].
  - rewrite (index_of_new name fs 0 QVariant_Int ltac:(lia) E). lia.
  - rewrite (index_of_found name fs _ 0 ltac:(lia) E). exact E.
Qed.

Section MarkColumn.
Context {G : Type} `{GeometryEngine G}.

(** With field look-up by exact name and source features that have one
    attribute per field, every feature of a layer that [split_by_polygon]
    returns under a mark directive holds, in the column that the look-up
    gives for the mark field in the result, the mark value or 0. *)
Lemma mark_column_holds_mark (vector : QgsVectorLayer G) (polygon : G)
  (request : QgsFeatureRequest G) (target_field : string)
  (target_value : QVariant) (out : QgsVectorLayer G) :
  split_by_polygon vector polygon request (Some (target_field, target_value))
    = Ok out ->
  (forall source,
      In source (getFeatures vector request) ->
      length (attributes source) = length (fields vector)) ->
  Forall
    (fun f =>
       exists value,
         (value = target_value \/ value = QInt 0)
         /\ attributes f !! Z.to_nat (fieldNameIndex (fields out) target_field)
            = Some value)
    (features out).
Proof.
  intros Hrun Hwell.
  apply split_by_polygon_invariant in Hrun as (Hfields & Hfeatures).
  eapply Forall_impl; [ exact Hfeatures | ].
  intros f (source & Hsource & value & Hvalue & Hmarked).
  exists value. split; [ exact Hvalue | ].
  rewrite Hfields. specialize (Hwell source Hsource).
  unfold result_fields in *. cbn [indexFromName fieldNameIndex exact_names] in *.
  destruct (Z.eqb_spec (index_of target_field (fields vector) 0) (-1))
    as [E | E].
  - rewrite (index_of_new target_field (fields vector) 0 QVariant_Int
               ltac:(lia) E).
    rewrite Hmarked, Z.add_0_l, Nat2Z.id, <- Hwell.
    rewrite lookup_app_r by lia. rewrite Nat.sub_diag. reflexivity.
  - rewrite app_nil_r in *.
    destruct (index_of_range target_field (fields vector) 0) as [E' | Hrange];
      [ contradiction | ].
    unfold list_setitem in Hmarked.
    destruct (_ <? 0) eqn:Eneg in Hmarked; [ lia | ].
    destruct ((0 <=? _) && (_ <? _)) eqn:Erange in Hmarked; [ | discriminate ].
    injection Hmarked as <-. apply list_lookup_insert_eq. lia.
Qed.

End MarkColumn.

End HostFacts.

(** ** The further properties on concrete layers *)

Module MoreExamples.
Import Py VectorTools Cells VectorFacts VectorMore HostFacts.

(** The overlapping parcel between two valid ones is left out. *)
Lemma union_geometry_skips_witness :
  union_geometry (parcels [middle; overlapping; astride]) default_request
  = dissolve [Feature middle [QInt 0]; Feature astride [QInt 2]].
Proof.
  apply (union_geometry_skips
           (parcels [middle; overlapping; astride]) default_request
           [Feature middle [QInt 0]] [Feature astride [QInt 2]]
           (Feature overlapping [QInt 1]) middle);
    reflexivity.
Defined.

(** An overlapping first parcel keeps two valid parcels out. *)
Lemma union_geometry_poisoned_witness :
  union_geometry (parcels [overlapping; middle; astride]) default_request
  = Ok (Some overlapping).
Proof.
  apply (union_geometry_poisoned
           (parcels [overlapping; middle; astride]) default_request
           (Feature overlapping [QInt 0])
           [Feature middle [QInt 1]; Feature astride [QInt 2]]);
    [ reflexivity | ].
  repeat constructor.
Defined.

(** The whole result for a parcel astride the border and one far away,
    marked in a new field. *)
Lemma split_by_polygon_marked_witness :
  split_by_polygon (parcels [astride; far_away]) square3 default_request
                   (Some ("inside", QInt 1))
  = Ok (Layer "intersected" 2 "EPSG:4326"
          [Field "id" QVariant_Int; Field "inside" QVariant_Int]
          [ Feature [(2, 1)] [QInt 0; QInt 1];
            Feature [(3, 1); (0, 0); (1, 0); (2, 0); (0, 1); (1, 1);
                     (0, 2); (1, 2); (2, 2)] [QInt 0; QInt 0];
            Feature [(7, 7)] [QInt 1; QInt 0] ]).
Proof.
  assert (Hfound :
    fieldNameIndex
      (result_fields (parcels [astride; far_away]) (Some ("inside", QInt 1)))
      "inside" <> -1) by (vm_compute; discriminate).
  exact (split_by_polygon_marked (parcels [astride; far_away]) square3
           default_request "inside" (QInt 1)
           (or_intror eq_refl) Hfound (or_introl eq_refl)).
Defined.

(** No parcel selected: the empty result, without and with a mark. *)
Lemma split_by_polygon_no_feature_witness :
  split_by_polygon (parcels [middle; far_away]) square3 (fun _ => false) None
  = Ok (Layer "intersected" 2 "EPSG:4326" [Field "id" QVariant_Int] [])
  /\ split_by_polygon (parcels [middle; far_away]) square3 (fun _ => false)
                      (Some ("inside", QInt 1))
     = Ok (Layer "intersected" 2 "EPSG:4326"
             [Field "id" QVariant_Int; Field "inside" QVariant_Int] []).
Proof.
  split.
  - apply (split_by_polygon_no_feature (parcels [middle; far_away]) square3
             (fun _ => false) None);
      [ right; reflexivity | intros tf tv; discriminate
      | intros f _; reflexivity ].
  - assert (Hfound : forall tf tv,
              Some ("inside", QInt 1) = Some (tf, tv) ->
              fieldNameIndex
                (result_fields (parcels [middle; far_away])
                               (Some ("inside", QInt 1))) tf <> -1)
      by (intros tf tv [= <- <-]; vm_compute; discriminate).
    exact (split_by_polygon_no_feature (parcels [middle; far_away]) square3
             (fun _ => false) (Some ("inside", QInt 1))
             (or_intror eq_refl) Hfound (fun f _ => eq_refl)).
Defined.

(** A layer with two fields whose only feature holds one attribute. *)
Lemma split_short_attributes_raises_witness :
  split_by_polygon
    (Layer "parcels" 2 "EPSG:4326"
       [Field "id" QVariant_Int; Field "inside" QVariant_Int]
       [Feature far_away [QInt 0]])
    square3 default_request (Some ("inside", QInt 1))
  = Raise IndexError.
Proof.
  apply (split_short_attributes_raises
           (Layer "parcels" 2 "EPSG:4326"
              [Field "id" QVariant_Int; Field "inside" QVariant_Int]
              [Feature far_away [QInt 0]])
           square3 default_request "inside" (QInt 1)
           (Feature far_away [QInt 0]) []);
    [ right; reflexivity | reflexivity | reflexivity | reflexivity
    | vm_compute; discriminate ].
Defined.

(** With look-up by exact name a polygon layer never ends in the
    data-kind error. *)
Lemma split_field_always_found_witness :
  data_kind_error
    (split_by_polygon (parcels [middle]) square3 default_request
                      (Some ("inside", QInt 1)))
  <-> geometryType (parcels [middle]) <> 1
      /\ geometryType (parcels [middle]) <> 2.
Proof.
  apply (split_field_always_found (parcels [middle]) square3 default_request
           (Some ("inside", QInt 1)));
    apply exact_names_agree.
Defined.

(** The mark column of the three features of the split above. *)
Lemma mark_column_holds_mark_witness :
  Forall
    (fun f =>
       exists value,
         (value = QInt 1 \/ value = QInt 0)
         /\ attributes f !! 1%nat = Some value)
    [ Feature [(2, 1)] [QInt 0; QInt 1];
      Feature [(3, 1); (0, 0); (1, 0); (2, 0); (0, 1); (1, 1);
               (0, 2); (1, 2); (2, 2)] [QInt 0; QInt 0];
      Feature [(7, 7)] [QInt 1; QInt 0] ].
Proof.
  apply (mark_column_holds_mark (parcels [astride; far_away]) square3
           default_request "inside" (QInt 1)
           (Layer "intersected" 2 "EPSG:4326"
              [Field "id" QVariant_Int; Field "inside" QVariant_Int]
              [ Feature [(2, 1)] [QInt 0; QInt 1];
                Feature [(3, 1); (0, 0); (1, 0); (2, 0); (0, 1); (1, 1);
                         (0, 2); (1, 2); (2, 2)] [QInt 0; QInt 0];
                Feature [(7, 7)] [QInt 1; QInt 0] ]));
    [ reflexivity | ].
  intros source [<- | [<- | []]]; reflexivity.
Defined.

End MoreExamples.
